(** * Decline-curve analysis of oil and gas wells: the model and its properties

    A shallow embedding of [curve_fit_tutorial.py].  Python floats are
    idealised as real numbers (no rounding, no overflow); the missing value
    of a float64 column is the extra element [NaN].  Timestamps are integers
    counting nanoseconds since the epoch, as pandas stores them.  Column
    names passed as strings are modelled by the projections of the row
    record.  The hyperbolic model is embedded twice: on Python floats, as
    its docstring declares its arguments, where a division by zero raises,
    and on numpy values, as the fitting routine and [main] call it, where
    it warns and goes on.  The fitting routine belongs to a library and is
    a parameter of the driver; the bounded solver that the specification
    describes in its place is modelled from the specification. *)

From Stdlib Require Import Reals Lra Lia ZArith List Bool Permutation Sorted.
Import ListNotations.

Set Implicit Arguments.

(** ** Outcomes of Python calls *)

(** The exceptions that this program can meet.  [SolverError] stands for
    whatever the fitting library raises; none of them is caught anywhere in
    the source. *)
Inductive exn : Type :=
| ZeroDivisionError
| TypeError
| IndexError
| ValueError
| SolverError (code : nat).

Inductive result (A : Type) : Type :=
| Ok (a : A)
| Raise (e : exn).

Arguments Ok {A} a.
Arguments Raise {A} e.

Definition bind {A B : Type} (m : result A) (k : A -> result B) : result B :=
  match m with
  | Ok a => k a
  | Raise e => Raise e
  end.

Notation "'do' x <- m ; k" := (bind m (fun x => k))
  (at level 10, x name, m at level 100, k at level 200).

(** ** Python floats, idealised *)

(** A value of the numeric tower reached by float arithmetic: a float, or a
    complex number, which Python 3 answers for a negative base raised to a
    non-integral power.  The complex value itself is not modelled. *)
Inductive number : Type :=
| Float (r : R)
| Complex.

Module PyFloat.

Open Scope R_scope.

(** [x / y] on floats. *)
Definition div (x y : R) : result R :=
  if Req_dec_T y 0 then Raise ZeroDivisionError else Ok (x / y).

Definition is_integer (y : R) : bool :=
  if Req_dec_T (IZR (Int_part y)) y then true else false.

(** [x ** y] on floats, following [float_pow]: anything to the power zero
    is one; zero to a negative power raises; a negative base needs an
    integral exponent to stay real.  The result is the exact real power:
    the OverflowError that [float_pow] raises when the power exceeds the
    largest float has no counterpart over the reals. *)
Definition pow (x y : R) : result number :=
  if Req_dec_T y 0 then Ok (Float 1)
  else if Req_dec_T x 0 then
    (if Rlt_dec y 0 then Raise ZeroDivisionError else Ok (Float 0))
  else if Rlt_dec x 0 then
    (if is_integer y then Ok (Float (powerRZ x (Int_part y))) else Ok Complex)
  else Ok (Float (Rpower x y)).

(** [x / n] where [n] came out of [**]. *)
Definition div_number (x : R) (n : number) : result number :=
  match n with
  | Float y => do q <- div x y; Ok (Float q)
  | Complex => Ok Complex
  end.

End PyFloat.

(** ** The two decline models *)

Section Models.

Open Scope R_scope.

(** [return qi/((1.0+b*di*t)**(1.0/b))], called with Python floats as
    the docstring declares its arguments; [NumPy.hyperbolic_equation]
    below is the same line on the numpy values that [main] and the
    fitting routine pass. *)
Definition hyperbolic_equation (t qi b di : R) : result number :=
  do e <- PyFloat.div 1 b;
  do p <- PyFloat.pow (1 + b * di * t) e;
  PyFloat.div_number qi p.

(** [return qi*np.exp(-di*t)] *)
Definition exponential_equation (t qi di : R) : R :=
  qi * exp (- di * t).

(** The closed forms as the specification words them.  The real power
    [x^y] is [exp (y * ln x)] for a positive base, [0] for base [0] and a
    positive exponent, the integral power for a negative base and an
    integral exponent, and undefined otherwise; a quotient by zero is
    undefined. *)
Definition real_power (x y : R) : option R :=
  if Rlt_dec 0 x then Some (Rpower x y)
  else if Req_dec_T x 0 then (if Rlt_dec 0 y then Some 0 else None)
  else if PyFloat.is_integer y then Some (powerRZ x (Int_part y))
  else None.

Definition Exponential_closed_form (t qi di : R) : R :=
  qi * exp (- (di * t)).

Definition Hyperbolic_closed_form (t qi b di : R) : option R :=
  match real_power (1 + b * di * t) (1 / b) with
  | Some d => if Req_dec_T d 0 then None else Some (qi / d)
  | None => None
  end.

(** The float a call returned, if it returned one. *)
Definition float_of (r : result number) : option R :=
  match r with
  | Ok (Float v) => Some v
  | _ => None
  end.

End Models.

(** ** numpy floats, idealised *)

(** [curve_fit] and line 166 of [main] call the model functions with
    numpy values, on which nothing raises: a division by zero or an
    invalid operation answers an infinity or nan, with a RuntimeWarning.
    Finite values are idealised as reals, as above, so overflow to an
    infinity and underflow to zero are not represented, and the real zero
    stands for +0.0. *)
Module NumPy.

Open Scope R_scope.

Inductive value : Type :=
| Nan
| Inf (negative : bool)
| Num (r : R).

Inductive warning : Type :=
| divide_by_zero
| invalid_value.

(** What an operation answers and what it warns of. *)
Definition outcome : Type := (value * list warning)%type.

(** [x / y] on finite values. *)
Definition div (x y : R) : outcome :=
  if Req_dec_T y 0 then
    (if Req_dec_T x 0 then (Nan, [invalid_value])
     else (Inf (if Rlt_dec x 0 then true else false), [divide_by_zero]))
  else (Num (x / y), []).

(** [x ** e] for a finite base, following the C function [pow]: one to
    any power and any base to the power zero are one; an infinite
    exponent sends a base of magnitude below one to zero or infinity and
    one of magnitude above one the other way; zero to a negative power is
    an infinity, with a warning; a negative base with a fractional
    exponent is nan, with a warning. *)
Definition pow (x : R) (e : value) : outcome :=
  match e with
  | Nan => if Req_dec_T x 1 then (Num 1, []) else (Nan, [])
  | Inf negative =>
      if Req_dec_T (Rabs x) 1 then (Num 1, [])
      else if Rlt_dec (Rabs x) 1 then
        (if negative then (Inf false, []) else (Num 0, []))
      else (if negative then (Num 0, []) else (Inf false, []))
  | Num y =>
      if Req_dec_T y 0 then (Num 1, [])
      else if Req_dec_T x 0 then
        (if Rlt_dec y 0 then (Inf false, [divide_by_zero]) else (Num 0, []))
      else if Rlt_dec x 0 then
        (if PyFloat.is_integer y then (Num (powerRZ x (Int_part y)), [])
         else (Nan, [invalid_value]))
      else (Num (Rpower x y), [])
  end.

(** [x / p] where [p] came out of [**]. *)
Definition div_value (x : R) (p : value) : outcome :=
  match p with
  | Num y => div x y
  | Inf _ => (Num 0, [])
  | Nan => (Nan, [])
  end.

(** [return qi/((1.0+b*di*t)**(1.0/b))], on numpy values. *)
Definition hyperbolic_equation (t qi b di : R) : outcome :=
  let (e, w1) := div 1 b in
  let (p, w2) := pow (1 + b * di * t) e in
  let (q, w3) := div_value qi p in
  (q, w1 ++ w2 ++ w3).

End NumPy.

(** ** Frames *)

(** A cell of a float64 column: a number, or the missing value. *)
Inductive float64 : Type :=
| NaN
| Fin (r : R).

(** [Series.notnull()] at one cell. *)
Definition notnull (x : float64) : bool :=
  match x with
  | NaN => false
  | Fin _ => true
  end.

(** [Series > 0] at one cell; a comparison with NaN is false. *)
Definition gt0 (x : float64) : bool :=
  match x with
  | NaN => false
  | Fin r => if Rlt_dec 0 r then true else false
  end.

(** [filtered_df = df[(df[variable].notnull()) & (df[variable]>0)]] *)
Definition remove_nan_and_zeroes_from_columns {Row : Type}
    (df : list Row) (variable : Row -> float64) : list Row :=
  filter (fun r => notnull (variable r) && gt0 (variable r)) df.

Module Timestamp.

Open Scope Z_scope.

Definition ns_per_day : Z := 86400 * 1000000000.

(** Days from 1970-01-01 to the civil date [y]-[m]-[d] of the proleptic
    Gregorian calendar: how a date literal becomes a timestamp. *)
Definition days_from_civil (y m d : Z) : Z :=
  let y' := if m <=? 2 then y - 1 else y in
  let era := y' / 400 in
  let yoe := y' - era * 400 in
  let mp := (m + 9) mod 12 in
  let doy := (153 * mp + 2) / 5 + d - 1 in
  let doe := yoe * 365 + yoe / 4 - yoe / 100 + doy in
  era * 146097 + doe - 719468.

(** Midnight of a date, in nanoseconds since the epoch. *)
Definition of_date (y m d : Z) : Z := days_from_civil y m d * ns_per_day.

(** [Timedelta.days]: the whole days of a difference of timestamps,
    rounded towards minus infinity. *)
Definition days (delta : Z) : Z := delta / ns_per_day.

End Timestamp.

(** [return (df[time_column]-df[date_first_online_column]).dt.days] *)
Definition generate_time_delta_column {Row : Type}
    (df : list Row) (time_column date_first_online_column : Row -> Z)
    : list Z :=
  map (fun r => Timestamp.days (time_column r - date_first_online_column r)) df.

(** The two aggregations the docstring allows for [calc_type]. *)
Inductive calc_type : Type :=
| calc_min
| calc_max.

Definition aggregate (c : calc_type) : Z -> Z -> Z :=
  match c with
  | calc_min => Z.min
  | calc_max => Z.max
  end.

(** The rows of the group with key [k], in frame order. *)
Definition group_rows {Row : Type}
    (dataframe : list Row) (group_by_column : Row -> Z) (k : Z) : list Row :=
  filter (fun r => Z.eqb (group_by_column r) k) dataframe.

(** [dataframe.groupby(group_by_column)[calc_column].transform(calc_type)]:
    one value per row, the aggregate over the row's group.  The fold starts
    from the row's own value, which belongs to the group. *)
Definition get_min_or_max_value_in_column_by_group {Row : Type}
    (dataframe : list Row) (group_by_column calc_column : Row -> Z)
    (c : calc_type) : list Z :=
  map (fun r =>
         fold_right (aggregate c) (calc_column r)
           (map calc_column
                (group_rows dataframe group_by_column (group_by_column r))))
      dataframe.

(** [df.sort_values(by=date_column)], ascending.  Rows with equal keys keep
    their frame order here; the library's default sort promises nothing
    about them. *)
Fixpoint insert_by {Row : Type} (key : Row -> Z) (r : Row) (l : list Row)
    : list Row :=
  match l with
  | [] => [r]
  | x :: l' => if Z.leb (key r) (key x) then r :: l else x :: insert_by key r l'
  end.

Definition sort_values {Row : Type} (by_column : Row -> Z) (df : list Row)
    : list Row :=
  fold_right (insert_by by_column) [] df.

(** [df.head(n)]: the first [n] rows, or for a negative [n] all rows but
    the last [-n]. *)
Definition head {Row : Type} (n : Z) (df : list Row) : list Row :=
  if Z.leb 0 n then firstn (Z.to_nat n) df
  else firstn (length df - Z.to_nat (- n)) df.

(** [Series.max()]: missing values are skipped; the maximum of nothing is
    NaN. *)
Definition fmax (x acc : float64) : float64 :=
  match x, acc with
  | NaN, _ => acc
  | _, NaN => x
  | Fin u, Fin v => Fin (Rmax u v)
  end.

Definition series_max (s : list float64) : float64 :=
  fold_right fmax NaN s.

(** [df=df.sort_values(by=date_column)]
    [df_beginning_production=df.head(number_first_months)]
    [return df_beginning_production[variable_column].max()] *)
Definition get_max_initial_production {Row : Type}
    (df : list Row) (number_first_months : Z)
    (variable_column : Row -> float64) (date_column : Row -> Z) : float64 :=
  let df := sort_values date_column df in
  let df_beginning_production := head number_first_months df in
  series_max (map variable_column df_beginning_production).

(** ** The driver *)

(** A row of the production table as [main] uses it, [ReportDate] already
    converted by [pd.to_datetime]. *)
Record reading : Type := {
  API_WELLNO : Z;
  ReportDate : Z;
  Oil : float64;
  Gas : float64
}.

(** A row after [main] has added the columns [Online_Date] and
    [Days_Online]. *)
Record online_reading : Type := {
  raw : reading;
  Online_Date : Z;
  Days_Online : Z
}.

(** [desired_product_type='Oil'] *)
Definition desired_product_type : reading -> float64 := Oil.

(** A model function as the fitting routine calls it, [f(t, *params)],
    on numpy values: a wrong number of parameters raises, the evaluation
    itself does not. *)
Definition model_function : Type := R -> list R -> result NumPy.outcome.

Definition call_exponential : model_function :=
  fun t params =>
    match params with
    | [qi; di] => Ok (NumPy.Num (exponential_equation t qi di), [])
    | _ => Raise TypeError
    end.

Definition call_hyperbolic : model_function :=
  fun t params =>
    match params with
    | [qi; b; di] => Ok (NumPy.hyperbolic_equation t qi b di)
    | _ => Raise TypeError
    end.

(** [bounds=(0, [...])]: a scalar lower bound and one upper bound per
    parameter. *)
Definition bounds : Type := (R * list float64)%type.

Definition covariance : Type := list (list float64).

(** [scipy.optimize.curve_fit(f, xdata, ydata, bounds=...)], which returns
    [(popt, pcov)] or raises.  The routine belongs to a library and is a
    parameter of the driver. *)
Definition solver : Type :=
  model_function -> list Z -> list float64 -> bounds ->
  result (list R * covariance).

(** A row handed to the plot: days online, the observed value and the two
    predicted columns, evaluated on numpy values; the warnings of the
    evaluation go to the error stream and are not part of the row. *)
Record plotted_row : Type := {
  p_Days_Online : Z;
  p_observed : float64;
  p_Hyperbolic_Predicted : NumPy.value;
  p_Exponential_Predicted : R
}.

(** What [main] shows: the two printed lines and the plot of a well. *)
Inductive event : Type :=
| PrintExponential (qi di : R)
| PrintHyperbolic (qi b di : R)
| Plot (api_number : Z) (rows : list plotted_row).

(** A statement sequence: the events shown so far, and either a value or
    the exception that ended it. *)
Definition out (A : Type) : Type := (list event * result A)%type.

Definition ret {A : Type} (a : A) : out A := ([], Ok a).

Definition emit (e : event) : out unit := ([e], Ok tt).

Definition lift {A : Type} (r : result A) : out A := ([], r).

Definition seq {A B : Type} (m : out A) (k : A -> out B) : out B :=
  match m with
  | (tr, Ok a) => let (tr', r) := k a in (tr ++ tr', r)
  | (tr, Raise e) => (tr, Raise e)
  end.

Notation "x <~ m ;; k" := (seq m (fun x => k))
  (at level 61, m at next level, right associativity).
Notation "m ;;; k" := (seq m (fun _ => k))
  (at level 61, right associativity).

(** [df.plot(x=x_variable, y=y_variables, title=plot_title)] and
    [plt.show()]: the plot of a well is shown. *)
Definition plot_actual_vs_predicted_by_equations (api_number : Z)
    (df : list plotted_row) : out unit :=
  emit (Plot api_number df).

(** [popt[i]] *)
Definition item (popt : list R) (i : nat) : result R :=
  match nth_error popt i with
  | Some v => Ok v
  | None => Raise IndexError
  end.

(** [for api_number in ...: body] *)
Fixpoint for_each (l : list Z) (body : Z -> out unit) : out unit :=
  match l with
  | [] => ret tt
  | x :: l' => body x ;;; for_each l' body
  end.

(** [unique_well_APIs_list] *)
Definition unique_well_APIs_list : list Z :=
  [33023013930000; 33105039980000; 33105039970000;
   33013018230000; 33013018220000]%Z.

(** Lines 136 to 142 of [main]: the cleaning, then the two new columns. *)
Definition anchor (bakken_data : list reading) : list online_reading :=
  let bakken_data :=
    remove_nan_and_zeroes_from_columns bakken_data desired_product_type in
  let online :=
    combine bakken_data
      (get_min_or_max_value_in_column_by_group
         bakken_data API_WELLNO ReportDate calc_min) in
  let days :=
    generate_time_delta_column online (fun r => ReportDate (fst r)) snd in
  map (fun rd => Build_online_reading (fst (fst rd)) (snd (fst rd)) (snd rd))
      (combine online days).

(** Line 144: wells that came online between January and June 2016. *)
Definition online_in_2016 (bakken_data : list online_reading)
    : list online_reading :=
  filter (fun r => Z.leb (Timestamp.of_date 2016 1 1) (Online_Date r)
                   && Z.leb (Online_Date r) (Timestamp.of_date 2016 6 1))
         bakken_data.

(** Line 151: the rows of one well. *)
Definition subset (bakken_data_2016 : list online_reading) (api_number : Z)
    : list online_reading :=
  filter (fun r => Z.eqb (API_WELLNO (raw r)) api_number) bakken_data_2016.

(** Line 153: the initial-rate estimate of a well. *)
Definition initial_rate (production_time_series : list online_reading)
    : float64 :=
  get_max_initial_production production_time_series 3
    (fun r => desired_product_type (raw r)) (fun r => ReportDate (raw r)).

Definition exponential_bounds (qi : float64) : bounds :=
  (0%R, [qi; Fin 20]).

Definition hyperbolic_bounds (qi : float64) : bounds :=
  (0%R, [qi; Fin 2; Fin 20]).

(** Lines 163 to 167: the two predicted columns, at one row. *)
Definition predicted_row (qe de qh bh dh : R) (r : online_reading)
    : plotted_row :=
  {| p_Days_Online := Days_Online r;
     p_observed := desired_product_type (raw r);
     p_Hyperbolic_Predicted :=
       fst (NumPy.hyperbolic_equation (IZR (Days_Online r)) qh bh dh);
     p_Exponential_Predicted :=
       exponential_equation (IZR (Days_Online r)) qe de |}.

Section Driver.

Variable curve_fit : solver.

(** The body of the loop of [main], lines 150 to 174. *)
Definition process_well (bakken_data_2016 : list online_reading)
    (api_number : Z) : out unit :=
  let production_time_series := subset bakken_data_2016 api_number in
  let qi := initial_rate production_time_series in
  let xdata := map Days_Online production_time_series in
  let ydata :=
    map (fun r => desired_product_type (raw r)) production_time_series in
  fit_exp <~ lift (curve_fit call_exponential xdata ydata
                     (exponential_bounds qi)) ;;
  let popt_exp := fst fit_exp in
  e0 <~ lift (item popt_exp 0) ;;
  e1 <~ lift (item popt_exp 1) ;;
  emit (PrintExponential e0 e1) ;;;
  fit_hyp <~ lift (curve_fit call_hyperbolic xdata ydata
                     (hyperbolic_bounds qi)) ;;
  let popt_hyp := fst fit_hyp in
  h0 <~ lift (item popt_hyp 0) ;;
  h1 <~ lift (item popt_hyp 1) ;;
  h2 <~ lift (item popt_hyp 2) ;;
  emit (PrintHyperbolic h0 h1 h2) ;;;
  match popt_exp, popt_hyp with
  | [qe; de], [qh; bh; dh] =>
      plot_actual_vs_predicted_by_equations api_number
        (map (predicted_row qe de qh bh dh) production_time_series)
  | _, _ => lift (Raise TypeError)
  end.

(** [main], from the table that [read_in_csv] and [pd.to_datetime] hand
    it to what it shows. *)
Definition main (bakken_data : list reading) : out unit :=
  let bakken_data_2016 := online_in_2016 (anchor bakken_data) in
  for_each unique_well_APIs_list (process_well bakken_data_2016).

End Driver.

(** ** The solver of the specification *)

(** Modelled from the spec: the two failures of the bounded solver of
    section 4.6, which the repository does not hold ([main] calls a
    library routine in its place). *)
Definition ConvergenceError : exn := SolverError 1.

Definition NumericalInstabilityError : exn := SolverError 2.

(** Modelled from the spec: what the solver of section 4.6 leaves to
    numerical routines, missing from the repository like the solver
    itself: the initial damping, the iteration budget, the step of the
    damped normal equations at a point under a damping factor (steps 2
    and 3, which may fail), the convergence tests on the step and the two
    costs (step 6), and the covariance estimate. *)
Record numerics : Type := {
  lambda0 : R;
  max_iterations : nat;
  step :
    model_function -> list Z -> list float64 -> list R -> R ->
    result (list R);
  converged : list R -> R -> R -> bool;
  covariance_at : list R -> covariance
}.

(** Modelled from the spec: the configuration check of the missing
    solver.  A box whose upper end is absent or below the lower end is
    malformed, which is fatal. *)
Fixpoint upper_ends (lo : R) (his : list float64) : result (list R) :=
  match his with
  | [] => Ok []
  | NaN :: _ => Raise ValueError
  | Fin h :: his' =>
      if Rle_dec lo h then do hs <- upper_ends lo his'; Ok (h :: hs)
      else Raise ValueError
  end.

(** Modelled from the spec: step 1 of the missing solver without an
    initial guess, the midpoint of the box. *)
Definition midpoint (lo : R) (hs : list R) : list R :=
  map (fun h => ((lo + h) / 2)%R) hs.

(** Modelled from the spec: the clamp of one component into its bound,
    part of the missing solver. *)
Definition clip (lo hi x : R) : R := Rmax lo (Rmin x hi).

(** Modelled from the spec: step 4 of the missing solver, the proposal
    [clip(p + dp, lo, hi)], component by component; a component for which
    the step has no entry is left where it is. *)
Fixpoint propose (lo : R) (hs p dp : list R) : list R :=
  match hs, p with
  | h :: hs', v :: p' =>
      clip lo h (v + hd 0%R dp) :: propose lo hs' p' (tl dp)
  | _, _ => []
  end.

(** Modelled from the spec: one residual [y - model(t, p)] of the missing
    solver; a residual that is not a finite number is a numerical
    failure. *)
Definition residual (f : model_function) (p : list R) (t : Z) (y : float64)
    : result R :=
  match y with
  | NaN => Raise NumericalInstabilityError
  | Fin v =>
      do m <- f (IZR t) p;
      match fst m with
      | NumPy.Num q => Ok (v - q)%R
      | _ => Raise NumericalInstabilityError
      end
  end.

(** Modelled from the spec: the cost of the missing solver, the sum of
    the squared residuals. *)
Fixpoint cost (f : model_function) (p : list R) (data : list (Z * float64))
    : result R :=
  match data with
  | [] => Ok 0%R
  | (t, y) :: data' =>
      do r <- residual f p t y;
      do c <- cost f p data';
      Ok (r * r + c)%R
  end.

(** Modelled from the spec: the loop of the missing solver, steps 2 to 7.
    The proposal is accepted when it lowers the cost, and the damping is
    then divided by ten, else multiplied by ten; the loop ends converged
    on the tests of step 6 and fails when the budget is used up. *)
Fixpoint iterate (nm : numerics) (f : model_function)
    (xdata : list Z) (ydata : list float64) (lo : R) (hs : list R)
    (budget : nat) (p : list R) (lambda : R) : result (list R) :=
  match budget with
  | O => Raise ConvergenceError
  | S budget' =>
      do c <- cost f p (combine xdata ydata);
      do dp <- step nm f xdata ydata p lambda;
      let p' := propose lo hs p dp in
      do c' <- cost f p' (combine xdata ydata);
      let p1 := if Rlt_dec c' c then p' else p in
      let lambda1 :=
        if Rlt_dec c' c then (lambda / 10)%R else (lambda * 10)%R in
      if converged nm dp c c' then Ok p1
      else iterate nm f xdata ydata lo hs budget' p1 lambda1
  end.

(** Modelled from the spec: the bounded least-squares solver of section
    4.6, missing from the repository, under the calling convention of the
    routine that [main] calls. *)
Definition bounded_least_squares (nm : numerics) : solver :=
  fun f xdata ydata box =>
    do hs <- upper_ends (fst box) (snd box);
    do p <- iterate nm f xdata ydata (fst box) hs (max_iterations nm)
              (midpoint (fst box) hs) (lambda0 nm);
    Ok (p, covariance_at nm p).

(** ** Notions used in the statements *)

(** A parameter vector inside a bound box, both ends included. *)
Definition admitted (box : bounds) (p : list R) : Prop :=
  Forall2 (fun v hi => exists h, hi = Fin h /\ (fst box <= v <= h)%R)
          p (snd box).

(** Rows in ascending order of an integer column. *)
Definition key_le {A : Type} (key : A -> Z) (x y : A) : Prop :=
  (key x <= key y)%Z.

(** A rate that is present and strictly positive. *)
Definition valid_rate (x : float64) : Prop :=
  exists v, x = Fin v /\ (0 < v)%R.

(** [retained P l l']: [l'] keeps, in the order of [l], exactly the
    elements of [l] that satisfy [P]. *)
Inductive retained {A : Type} (P : A -> Prop) : list A -> list A -> Prop :=
| retained_nil : retained P [] []
| retained_keep x l l' : P x -> retained P l l' -> retained P (x :: l) (x :: l')
| retained_drop x l l' : ~ P x -> retained P l l' -> retained P (x :: l) l'.

(** The rows of one well after anchoring: a common online date, and days
    online counted from it. *)
Definition one_well_series (series : list online_reading) : Prop :=
  (forall r, In r series ->
     Days_Online r = Timestamp.days (ReportDate (raw r) - Online_Date r)) /\
  (forall r r', In r series -> In r' series -> Online_Date r = Online_Date r').

(** The online date that [anchor] gives a retained row. *)
Definition online_date_of (kept : list reading) (r : reading) : Z :=
  fold_right Z.min (ReportDate r)
    (map ReportDate (group_rows kept API_WELLNO (API_WELLNO r))).

(** A solver that keeps its answers inside the box it is given. *)
Definition respects_bounds (curve_fit : solver) : Prop :=
  forall f xdata ydata box popt pcov,
    curve_fit f xdata ydata box = Ok (popt, pcov) -> admitted box popt.

(** An event of the body of a well whose parameters lie in the boxes
    that [main] builds for that well, ends included: qi between 0 and the
    initial-rate estimate of the well, di between 0 and 20 and, for the
    hyperbolic line, b between 0 and 2. *)
Definition in_box_of (data : list online_reading) (api_number : Z)
    (ev : event) : Prop :=
  match ev with
  | PrintExponential qi di =>
      exists qmax,
        initial_rate (subset data api_number) = Fin qmax /\
        (0 <= qi <= qmax)%R /\ (0 <= di <= 20)%R
  | PrintHyperbolic qi b di =>
      exists qmax,
        initial_rate (subset data api_number) = Fin qmax /\
        (0 <= qi <= qmax)%R /\ (0 <= b <= 2)%R /\ (0 <= di <= 20)%R
  | Plot a _ => a = api_number
  end.

(** The rows of one well in the table. *)
Definition rows_of_well (api_number : Z) (csv : list reading) : list reading :=
  filter (fun r => Z.eqb (API_WELLNO r) api_number) csv.

(** The rate and date columns of an anchored row. *)
Definition rate_column (r : online_reading) : float64 :=
  desired_product_type (raw r).

Definition date_column (r : online_reading) : Z := ReportDate (raw r).

(** ** Example data *)

(** Two monthly values of one well, later month first. *)
Definition two_months : list (Z * float64) :=
  [(2%Z, Fin 90); (1%Z, Fin 120)].

(** One well with a first record on 2016-01-15 and a later one on
    2016-02-14, the later one first in the table. *)
Definition january_february : list reading :=
  [ {| API_WELLNO := 33023013930000;
       ReportDate := Timestamp.of_date 2016 2 14;
       Oil := Fin 90; Gas := NaN |};
    {| API_WELLNO := 33023013930000;
       ReportDate := Timestamp.of_date 2016 1 15;
       Oil := Fin 100; Gas := NaN |} ].

(** A stand-in for the library routine, to run the driver on examples.
    Like the routine it refuses an empty [ydata] and a box whose upper
    end is missing or not above the lower end; it answers the centre of
    the box, the point from which the routine starts, without iterating. *)
Definition centre (lo : R) (hi : float64) : result R :=
  match hi with
  | Fin h => if Rlt_dec lo h then Ok ((lo + h) / 2)%R else Raise ValueError
  | NaN => Raise ValueError
  end.

Fixpoint centres (lo : R) (his : list float64) : result (list R) :=
  match his with
  | [] => Ok []
  | h :: his' =>
      do c <- centre lo h;
      do cs <- centres lo his';
      Ok (c :: cs)
  end.

Definition centre_fit : solver :=
  fun _ _ ydata box =>
    match ydata with
    | [] => Raise ValueError
    | _ :: _ => do popt <- centres (fst box) (snd box); Ok (popt, [])
    end.

(** The first well of the list of [main], with a single observation. *)
Definition single_observation : list reading :=
  [ {| API_WELLNO := 33023013930000;
       ReportDate := Timestamp.of_date 2016 1 15;
       Oil := Fin 100; Gas := NaN |} ].

(** A table that holds the second well of the list of [main] and nothing
    of the first. *)
Definition second_well_only : list reading :=
  [ {| API_WELLNO := 33105039980000;
       ReportDate := Timestamp.of_date 2016 1 15;
       Oil := Fin 100; Gas := NaN |};
    {| API_WELLNO := 33105039980000;
       ReportDate := Timestamp.of_date 2016 2 14;
       Oil := Fin 90; Gas := NaN |} ].

(** One observation for each well of the list of [main]. *)
Definition five_wells : list reading :=
  map (fun api_number =>
         {| API_WELLNO := api_number;
            ReportDate := Timestamp.of_date 2016 3 1;
            Oil := Fin 100; Gas := NaN |})
      unique_well_APIs_list.

(** Numerical routines that make no step and accept the first point:
    with them the solver of the specification answers where it starts. *)
Definition no_step : numerics :=
  {| lambda0 := (1 / 1000)%R;
     max_iterations := 1;
     step := fun _ _ _ _ _ => Ok [];
     converged := fun _ _ _ => true;
     covariance_at := fun _ => [] |}.

(** ** Properties of the models *)

Section ModelFacts.

Open Scope R_scope.

Lemma div_nonzero (x y : R) : y <> 0 -> PyFloat.div x y = Ok (x / y).
Proof.
  intros Hy. unfold PyFloat.div.
  destruct (Req_dec_T y 0) as [E | _]; [contradiction | reflexivity].
Qed.

Lemma div_zero (x : R) : PyFloat.div x 0 = Raise ZeroDivisionError.
Proof.
  unfold PyFloat.div.
  destruct (Req_dec_T 0 0) as [_ | N]; [reflexivity | now elim N].
Qed.

Lemma pow_positive_base (x y : R) :
  0 < x -> y <> 0 -> PyFloat.pow x y = Ok (Float (Rpower x y)).
Proof.
  intros Hx Hy. unfold PyFloat.pow.
  destruct (Req_dec_T y 0); [contradiction |].
  destruct (Req_dec_T x 0); [lra |].
  destruct (Rlt_dec x 0); [lra | reflexivity].
Qed.

Lemma Rpower_pos (x y : R) : 0 < Rpower x y.
Proof. unfold Rpower. apply exp_pos. Qed.

Lemma inv_exponent_nonzero (b : R) : 0 < b -> 1 / b <> 0.
Proof.
  intros Hb E. apply (Rmult_eq_compat_r b) in E.
  unfold Rdiv in E. rewrite Rmult_assoc, Rinv_l, Rmult_0_l in E; lra.
Qed.

(** On the domain where the base is positive the hyperbolic evaluation
    returns the quotient by the real power. *)
Lemma hyperbolic_positive_base (t qi b di : R) :
  0 < b -> 0 < 1 + b * di * t ->
  hyperbolic_equation t qi b di
  = Ok (Float (qi / Rpower (1 + b * di * t) (1 / b))).
Proof.
  intros Hb Hbase. unfold hyperbolic_equation.
  rewrite div_nonzero by lra. simpl.
  rewrite pow_positive_base by (auto using inv_exponent_nonzero). simpl.
  rewrite div_nonzero; [reflexivity |].
  pose proof (Rpower_pos (1 + b * di * t) (1 / b)). lra.
Qed.

Lemma hyperbolic_base_ge_1 (t b di : R) :
  0 <= b -> 0 <= di -> 0 <= t -> 1 <= 1 + b * di * t.
Proof.
  intros Hb Hd Ht.
  pose proof (Rmult_le_pos _ _ (Rmult_le_pos _ _ Hb Hd) Ht). lra.
Qed.

Lemma numpy_div_nonzero (x y : R) :
  y <> 0 -> NumPy.div x y = (NumPy.Num (x / y), []).
Proof.
  intros Hy. unfold NumPy.div.
  destruct (Req_dec_T y 0); [contradiction | reflexivity].
Qed.

Lemma numpy_div_one_by_zero :
  NumPy.div 1 0 = (NumPy.Inf false, [NumPy.divide_by_zero]).
Proof.
  unfold NumPy.div.
  destruct (Req_dec_T 0 0) as [_ | N]; [| now elim N].
  destruct (Req_dec_T 1 0); [lra |].
  destruct (Rlt_dec 1 0); [lra | reflexivity].
Qed.

(** On numpy values too, a positive base gives the quotient by the real
    power, and no warning. *)
Lemma numpy_hyperbolic_positive_base (t qi b di : R) :
  0 < b -> 0 < 1 + b * di * t ->
  NumPy.hyperbolic_equation t qi b di
  = (NumPy.Num (qi / Rpower (1 + b * di * t) (1 / b)), []).
Proof.
  intros Hb Hbase. unfold NumPy.hyperbolic_equation.
  rewrite numpy_div_nonzero by lra. unfold NumPy.pow.
  destruct (Req_dec_T (1 / b) 0) as [E | _];
    [now apply inv_exponent_nonzero in E |].
  destruct (Req_dec_T (1 + b * di * t) 0); [lra |].
  destruct (Rlt_dec (1 + b * di * t) 0); [lra |].
  unfold NumPy.div_value. rewrite numpy_div_nonzero; [reflexivity |].
  pose proof (Rpower_pos (1 + b * di * t) (1 / b)). lra.
Qed.

(** At b = 0 the exponent is an infinity, from a division by zero that
    is warned of, the power of the base 1 is 1 and the result is qi. *)
Lemma numpy_hyperbolic_at_zero_b (t qi di : R) :
  NumPy.hyperbolic_equation t qi 0 di
  = (NumPy.Num qi, [NumPy.divide_by_zero]).
Proof.
  unfold NumPy.hyperbolic_equation. rewrite numpy_div_one_by_zero.
  replace (1 + 0 * di * t) with 1 by ring.
  unfold NumPy.pow. rewrite Rabs_R1.
  destruct (Req_dec_T 1 1) as [_ | N]; [| now elim N].
  unfold NumPy.div_value. rewrite numpy_div_nonzero by lra.
  simpl. do 2 f_equal. field.
Qed.

End ModelFacts.


(** ** Monotone decline *)

Section Decline.

Open Scope R_scope.

Lemma exp_monotone (x y : R) : x <= y -> exp x <= exp y.
Proof.
  intros [Hlt | Heq].
  - left. now apply exp_increasing.
  - right. now rewrite Heq.
Qed.

Lemma exponential_decline (qi di t1 t2 : R) :
  0 <= qi -> 0 <= di -> t1 <= t2 ->
  exponential_equation t2 qi di <= exponential_equation t1 qi di.
Proof.
  intros Hq Hd Ht. unfold exponential_equation.
  apply Rmult_le_compat_l; [assumption |].
  apply exp_monotone. nra.
Qed.

Lemma quotient_decline (qi p1 p2 : R) :
  0 <= qi -> 0 < p1 -> p1 <= p2 -> qi / p2 <= qi / p1.
Proof.
  intros Hq Hp Hle. unfold Rdiv.
  apply Rmult_le_compat_l; [assumption |].
  apply Rinv_le_contravar; assumption.
Qed.

Lemma hyperbolic_decline (qi b di t1 t2 : R) :
  0 <= qi -> 0 < b -> 0 <= di -> 0 <= t1 -> t1 <= t2 ->
  exists q1 q2,
    hyperbolic_equation t1 qi b di = Ok (Float q1) /\
    hyperbolic_equation t2 qi b di = Ok (Float q2) /\
    q2 <= q1.
Proof.
  intros Hq Hb Hd Ht1 Ht.
  assert (H1 : 1 <= 1 + b * di * t1) by (apply hyperbolic_base_ge_1; lra).
  assert (H2 : 1 + b * di * t1 <= 1 + b * di * t2).
  { assert (0 <= b * di) by (apply Rmult_le_pos; lra). nra. }
  exists (qi / Rpower (1 + b * di * t1) (1 / b)),
         (qi / Rpower (1 + b * di * t2) (1 / b)).
  repeat split.
  - apply hyperbolic_positive_base; lra.
  - apply hyperbolic_positive_base; lra.
  - apply quotient_decline; [assumption | apply Rpower_pos |].
    apply Rle_Rpower_l; [| lra].
    left. apply Rdiv_lt_0_compat; lra.
Qed.

End Decline.

Section PredictedSeries.

Variable A : Type.
Variable key : A -> Z.

Lemma key_le_sorted_strongly (l : list A) :
  Sorted (key_le key) l -> StronglySorted (key_le key) l.
Proof.
  apply Sorted_StronglySorted.
  intros x y z Hxy Hyz. unfold key_le in *. lia.
Qed.

Lemma antitone_map_sorted (f : A -> R) (l : list A) :
  (forall x y, In x l -> In y l -> key_le key x y -> (f y <= f x)%R) ->
  StronglySorted (key_le key) l -> StronglySorted Rge (map f l).
Proof.
  intros Hf Hs. induction Hs as [| a l Hs IH Hall]; simpl.
  - constructor.
  - constructor.
    + apply IH. intros x y Hx Hy. apply Hf; now right.
    + rewrite Forall_map. rewrite Forall_forall in *.
      intros y Hy. apply Rle_ge. apply Hf; [now left | now right | auto].
Qed.

End PredictedSeries.

(** C5.  With positive qi and di (and b for the hyperbolic model) both
    evaluation functions are non-increasing in elapsed time over t >= 0:
    a later time never gets a larger rate, and the hyperbolic evaluation
    returns a float at both times.  Hence the two predicted columns of rows
    ordered by ascending non-negative days online, which [main] evaluates
    on numpy values, hold finite numbers and are non-increasing. *)
Theorem monotone_decline :
  (forall qi di t1 t2 : R,
      (0 < qi)%R -> (0 < di)%R -> (0 <= t1)%R -> (t1 <= t2)%R ->
      (exponential_equation t2 qi di <= exponential_equation t1 qi di)%R) /\
  (forall qi b di t1 t2 : R,
      (0 < qi)%R -> (0 < b)%R -> (0 < di)%R -> (0 <= t1)%R -> (t1 <= t2)%R ->
      exists q1 q2,
        hyperbolic_equation t1 qi b di = Ok (Float q1) /\
        hyperbolic_equation t2 qi b di = Ok (Float q2) /\
        (q2 <= q1)%R) /\
  (forall (qe de qh bh dh : R) (series : list online_reading),
      (0 < qe)%R -> (0 < de)%R -> (0 < qh)%R -> (0 < bh)%R -> (0 < dh)%R ->
      Forall (fun r => (0 <= Days_Online r)%Z) series ->
      Sorted (key_le Days_Online) series ->
      let rows := map (predicted_row qe de qh bh dh) series in
      StronglySorted Rge (map p_Exponential_Predicted rows) /\
      exists qs,
        map p_Hyperbolic_Predicted rows = map NumPy.Num qs /\
        StronglySorted Rge qs).
Proof.
  split; [| split].
  - intros qi di t1 t2 Hq Hd _ Ht. apply exponential_decline; lra.
  - intros qi b di t1 t2 Hq Hb Hd Ht1 Ht. apply hyperbolic_decline; lra.
  - intros qe de qh bh dh series Hqe Hde Hqh Hbh Hdh Hpos Hsorted rows.
    apply key_le_sorted_strongly in Hsorted.
    rewrite Forall_forall in Hpos.
    split.
    + unfold rows. rewrite map_map. simpl.
      apply antitone_map_sorted with (key := Days_Online); [| assumption].
      intros x y _ _ Hxy. apply exponential_decline; try lra.
      now apply IZR_le.
    + exists (map (fun r => (qh / Rpower (1 + bh * dh * IZR (Days_Online r))
                                        (1 / bh))%R) series).
      split.
      * unfold rows. rewrite !map_map. simpl.
        apply map_ext_in. intros r Hr.
        rewrite numpy_hyperbolic_positive_base; [reflexivity | assumption |].
        assert (1 <= 1 + bh * dh * IZR (Days_Online r))%R; [| lra].
        apply hyperbolic_base_ge_1; try lra.
        apply IZR_le with (n := 0%Z). now apply Hpos.
      * apply antitone_map_sorted with (key := Days_Online); [| assumption].
        intros x y Hx _ Hxy.
        destruct (@hyperbolic_decline qh bh dh (IZR (Days_Online x))
                    (IZR (Days_Online y))) as (q1 & q2 & E1 & E2 & Hle);
          try lra.
        { apply IZR_le with (n := 0%Z). now apply Hpos. }
        { now apply IZR_le. }
        rewrite hyperbolic_positive_base in E1, E2; try assumption.
        -- injection E1 as <-. injection E2 as <-. exact Hle.
        -- assert (1 <= 1 + bh * dh * IZR (Days_Online y))%R; [| lra].
           apply hyperbolic_base_ge_1; try lra.
           apply Rle_trans with (IZR (Days_Online x)).
           ++ apply IZR_le with (n := 0%Z). now apply Hpos.
           ++ now apply IZR_le.
        -- assert (1 <= 1 + bh * dh * IZR (Days_Online x))%R; [| lra].
           apply hyperbolic_base_ge_1; try lra.
           apply IZR_le with (n := 0%Z). now apply Hpos.
Qed.

(** ** Closed forms *)

Section ClosedForms.

Open Scope R_scope.

Lemma hyperbolic_at_zero_b (t qi di : R) :
  hyperbolic_equation t qi 0 di = Raise ZeroDivisionError.
Proof. unfold hyperbolic_equation. now rewrite div_zero. Qed.

Lemma hyperbolic_matches_closed_form (t qi b di : R) :
  0 < b ->
  float_of (hyperbolic_equation t qi b di) = Hyperbolic_closed_form t qi b di.
Proof.
  intros Hb.
  pose proof (inv_exponent_nonzero Hb) as He.
  assert (Hepos : 0 < 1 / b) by (apply Rdiv_lt_0_compat; lra).
  unfold hyperbolic_equation, Hyperbolic_closed_form, real_power.
  rewrite div_nonzero by lra. simpl.
  unfold PyFloat.pow.
  destruct (Req_dec_T (1 / b) 0) as [E | _]; [contradiction |].
  destruct (Req_dec_T (1 + b * di * t) 0) as [Z0 | NZ].
  - destruct (Rlt_dec (1 / b) 0); [lra |].
    destruct (Rlt_dec 0 (1 + b * di * t)); [lra |].
    destruct (Rlt_dec 0 (1 / b)); [| lra].
    simpl. rewrite div_zero. simpl.
    destruct (Req_dec_T 0 0) as [_ | N]; [reflexivity | now elim N].
  - destruct (Rlt_dec (1 + b * di * t) 0) as [Neg | NNeg].
    + destruct (Rlt_dec 0 (1 + b * di * t)); [lra |].
      destruct (PyFloat.is_integer (1 / b)); simpl; [| reflexivity].
      unfold PyFloat.div.
      destruct (Req_dec_T (powerRZ (1 + b * di * t) (Int_part (1 / b))) 0);
        reflexivity.
    + destruct (Rlt_dec 0 (1 + b * di * t)); [| lra].
      simpl. pose proof (Rpower_pos (1 + b * di * t) (1 / b)) as Hp.
      rewrite div_nonzero by lra. simpl.
      destruct (Req_dec_T (Rpower (1 + b * di * t) (1 / b)) 0); [lra |].
      reflexivity.
Qed.

Lemma hyperbolic_initial (qi b di : R) :
  0 < b -> hyperbolic_equation 0 qi b di = Ok (Float qi).
Proof.
  intros Hb. rewrite hyperbolic_positive_base by (try assumption; lra).
  do 2 f_equal.
  replace (1 + b * di * 0) with 1 by ring.
  unfold Rpower. rewrite ln_1, Rmult_0_r, exp_0. field.
Qed.

End ClosedForms.

(** C6.  The two evaluation functions compute the stated closed forms:
    the exponential one is qi * e^(-di*t) for every t, qi, di; for b > 0
    the hyperbolic one returns a float exactly where qi/(1+b*di*t)^(1/b)
    is defined, and then that number, which for a positive base is the
    quotient by the real power; both return qi at t = 0. *)
Theorem closed_forms :
  (forall t qi di : R,
      exponential_equation t qi di = Exponential_closed_form t qi di) /\
  (forall t qi b di : R,
      (0 < b)%R ->
      float_of (hyperbolic_equation t qi b di)
      = Hyperbolic_closed_form t qi b di) /\
  (forall t qi b di : R,
      (0 < b)%R -> (0 < 1 + b * di * t)%R ->
      hyperbolic_equation t qi b di
      = Ok (Float (qi / Rpower (1 + b * di * t) (1 / b)))) /\
  (forall qi di : R, exponential_equation 0 qi di = qi) /\
  (forall qi b di : R,
      (0 < b)%R -> hyperbolic_equation 0 qi b di = Ok (Float qi)).
Proof.
  repeat split.
  - intros t qi di. unfold exponential_equation, Exponential_closed_form.
    now rewrite Ropp_mult_distr_l.
  - intros. now apply hyperbolic_matches_closed_form.
  - intros. now apply hyperbolic_positive_base.
  - intros qi di. unfold exponential_equation.
    rewrite Rmult_0_r, exp_0. ring.
  - intros. now apply hyperbolic_initial.
Qed.

(** ** The bound box of the hyperbolic fit *)

Lemma admitted_hyperbolic (qmax : R) (p : list R) :
  admitted (hyperbolic_bounds (Fin qmax)) p <->
  exists qi b di,
    p = [qi; b; di] /\
    (0 <= qi <= qmax)%R /\ (0 <= b <= 2)%R /\ (0 <= di <= 20)%R.
Proof.
  unfold admitted, hyperbolic_bounds. simpl. split.
  - intros H.
    inversion H as [| qi ? p1 ? (h1 & E1 & B1) H1]; subst.
    inversion H1 as [| b ? p2 ? (h2 & E2 & B2) H2]; subst.
    inversion H2 as [| di ? p3 ? (h3 & E3 & B3) H3]; subst.
    inversion H3; subst.
    injection E1 as <-. injection E2 as <-. injection E3 as <-.
    exists qi, b, di. auto.
  - intros (qi & b & di & -> & Hq & Hb & Hd).
    repeat constructor; eexists; split; try reflexivity; assumption.
Qed.

Lemma admitted_exponential (qmax : R) (p : list R) :
  admitted (exponential_bounds (Fin qmax)) p <->
  exists qi di,
    p = [qi; di] /\ (0 <= qi <= qmax)%R /\ (0 <= di <= 20)%R.
Proof.
  unfold admitted, exponential_bounds. simpl. split.
  - intros H.
    inversion H as [| qi ? p1 ? (h1 & E1 & B1) H1]; subst.
    inversion H1 as [| di ? p2 ? (h2 & E2 & B2) H2]; subst.
    inversion H2; subst.
    injection E1 as <-. injection E2 as <-.
    exists qi, di. auto.
  - intros (qi & di & -> & Hq & Hd).
    repeat constructor; eexists; split; try reflexivity; assumption.
Qed.

(** C2, as the code has it.  The box of the hyperbolic fit is
    [0, qi] x [0, 2] x [0, 20] with both ends included, so the interval
    of b is [0, 2] and admits b = 0, and the evaluation has no other
    branch.  The exponent 1.0/b is a division by zero exactly at b = 0:
    there Python floats raise ZeroDivisionError, and the numpy values
    that the fitting routine and [main] pass give a divide-by-zero
    warning, the exponent inf and the result qi; for any other b the
    division of the exponent has a divisor that is not zero. *)
Theorem hyperbolic_box_includes_zero :
  (forall (qmax : R) (p : list R),
      admitted (hyperbolic_bounds (Fin qmax)) p <->
      exists qi b di,
        p = [qi; b; di] /\
        (0 <= qi <= qmax)%R /\ (0 <= b <= 2)%R /\ (0 <= di <= 20)%R) /\
  (forall t qi di : R,
      PyFloat.div 1 0 = Raise ZeroDivisionError /\
      hyperbolic_equation t qi 0 di = Raise ZeroDivisionError /\
      NumPy.div 1 0 = (NumPy.Inf false, [NumPy.divide_by_zero]) /\
      call_hyperbolic t [qi; 0%R; di]
      = Ok (NumPy.Num qi, [NumPy.divide_by_zero])) /\
  (forall b : R,
      b <> 0%R ->
      PyFloat.div 1 b = Ok (1 / b)%R /\
      NumPy.div 1 b = (NumPy.Num (1 / b), [])).
Proof.
  split; [| split].
  - apply admitted_hyperbolic.
  - intros t qi di.
    split; [apply div_zero |].
    split; [apply hyperbolic_at_zero_b |].
    split; [apply numpy_div_one_by_zero |].
    simpl. now rewrite numpy_hyperbolic_at_zero_b.
  - intros b Hb. split.
    + now apply div_nonzero.
    + now apply numpy_div_nonzero.
Qed.

(** C2, as the specification words it, fails: a vector with b = 0 lies in
    the box of the hyperbolic fit, and the evaluation divides by zero in
    the exponent at it, raising on Python floats and warning on numpy
    values. *)
Lemma hyperbolic_zero_b_admitted :
  admitted (hyperbolic_bounds (Fin 100)) [100; 0; 1]%R /\
  hyperbolic_equation 30 100 0 1 = Raise ZeroDivisionError /\
  call_hyperbolic 30%R [100; 0; 1]%R
  = Ok (NumPy.Num 100, [NumPy.divide_by_zero]).
Proof.
  split; [| split].
  - apply admitted_hyperbolic. exists 100%R, 0%R, 1%R.
    repeat split; lra.
  - apply hyperbolic_at_zero_b.
  - simpl. now rewrite numpy_hyperbolic_at_zero_b.
Qed.

(** ** The record filter *)

Lemma keep_test_spec (x : float64) :
  notnull x && gt0 x = true <-> valid_rate x.
Proof.
  unfold valid_rate. destruct x as [| r]; simpl.
  - split; [discriminate | intros (v & E & _); discriminate].
  - destruct (Rlt_dec 0 r) as [Hr | Hr]; split; try discriminate.
    + intros _. now exists r.
    + reflexivity.
    + intros (v & E & Hv). injection E as ->. contradiction.
Qed.

Lemma retained_In {A : Type} (P : A -> Prop) (l l' : list A) :
  retained P l l' -> forall x, In x l' <-> In x l /\ P x.
Proof.
  induction 1 as [| x l l' Hx _ IH | x l l' Hx _ IH]; intros y; simpl.
  - tauto.
  - rewrite IH. split.
    + intros [-> | [Hy Py]]; auto.
    + intros [[-> | Hy] Py]; auto.
  - rewrite IH. split.
    + intros [Hy Py]; auto.
    + intros [[-> | Hy] Py]; [contradiction | auto].
Qed.

(** C9.  The record filter returns exactly the rows whose rate is present
    and strictly positive, in their original order; it is a function of
    its input and changes nothing. *)
Theorem record_filter :
  forall (Row : Type) (df : list Row) (variable : Row -> float64),
    retained (fun r => valid_rate (variable r)) df
             (remove_nan_and_zeroes_from_columns df variable) /\
    (forall r,
        In r (remove_nan_and_zeroes_from_columns df variable) <->
        In r df /\ valid_rate (variable r)).
Proof.
  intros Row df variable.
  assert (H : retained (fun r => valid_rate (variable r)) df
                (remove_nan_and_zeroes_from_columns df variable)).
  { unfold remove_nan_and_zeroes_from_columns.
    induction df as [| r df IH]; simpl.
    - constructor.
    - destruct (notnull (variable r) && gt0 (variable r)) eqn:E.
      + apply retained_keep; [now apply keep_test_spec | exact IH].
      + apply retained_drop; [| exact IH].
        intros V. apply keep_test_spec in V. congruence. }
  split; [exact H | now apply retained_In].
Qed.

(** ** Sorting by a column *)

Section Sorting.

Variable Row : Type.
Variable key : Row -> Z.

Lemma insert_by_perm (r : Row) (l : list Row) :
  Permutation (insert_by key r l) (r :: l).
Proof.
  induction l as [| x l IH]; simpl.
  - apply Permutation_refl.
  - destruct (Z.leb (key r) (key x)).
    + apply Permutation_refl.
    + eapply perm_trans; [apply perm_skip, IH | apply perm_swap].
Qed.

Lemma insert_by_hd (r x : Row) (l : list Row) :
  key_le key x r -> HdRel (key_le key) x l ->
  HdRel (key_le key) x (insert_by key r l).
Proof.
  intros Hxr Hhd. destruct l as [| y l]; simpl.
  - now constructor.
  - destruct (Z.leb (key r) (key y)); constructor; auto.
    now inversion Hhd.
Qed.

Lemma insert_by_sorted (r : Row) (l : list Row) :
  Sorted (key_le key) l -> Sorted (key_le key) (insert_by key r l).
Proof.
  induction 1 as [| x l Hs IH Hhd]; simpl.
  - repeat constructor.
  - destruct (Z.leb (key r) (key x)) eqn:E.
    + constructor; [now constructor |].
      constructor. unfold key_le. now apply Z.leb_le.
    + constructor; [exact IH |].
      apply insert_by_hd; [| exact Hhd].
      unfold key_le. apply Z.leb_gt in E. lia.
Qed.

Lemma sort_values_perm (df : list Row) : Permutation (sort_values key df) df.
Proof.
  induction df as [| r df IH]; simpl.
  - constructor.
  - eapply perm_trans; [apply insert_by_perm | now apply perm_skip].
Qed.

Lemma sort_values_sorted (df : list Row) :
  Sorted (key_le key) (sort_values key df).
Proof.
  induction df as [| r df IH]; simpl.
  - constructor.
  - now apply insert_by_sorted.
Qed.

Lemma sort_values_length (df : list Row) :
  length (sort_values key df) = length df.
Proof. apply Permutation_length, sort_values_perm. Qed.

End Sorting.

(** ** The maximum of a column *)

Section SeriesMax.

Open Scope R_scope.

Lemma fmax_comm (x y : float64) : fmax x y = fmax y x.
Proof.
  destruct x, y; simpl; try reflexivity. now rewrite Rmax_comm.
Qed.

Lemma fmax_assoc (x y z : float64) : fmax x (fmax y z) = fmax (fmax x y) z.
Proof.
  destruct x, y, z; simpl; try reflexivity. now rewrite Rmax_assoc.
Qed.

Lemma series_max_perm (s s' : list float64) :
  Permutation s s' -> series_max s = series_max s'.
Proof.
  unfold series_max. induction 1 as [| x l l' _ IH | x y l | l1 l2 l3 _ IH1 _ IH2];
    simpl.
  - reflexivity.
  - now rewrite IH.
  - rewrite !fmax_assoc. now rewrite (fmax_comm y x).
  - now rewrite IH1.
Qed.

(** The maximum is NaN exactly when every cell is missing. *)
Lemma series_max_NaN (s : list float64) :
  series_max s = NaN <-> forall x, In x s -> x = NaN.
Proof.
  unfold series_max. induction s as [| x s IH]; simpl.
  - split; [intros _ y [] | reflexivity].
  - destruct x as [| u]; simpl.
    + rewrite IH. split.
      * intros H y [<- | Hy]; auto.
      * intros H y Hy. apply H. now right.
    + split.
      * destruct (fold_right fmax NaN s); discriminate.
      * intros H. specialize (H (Fin u) (or_introl eq_refl)). discriminate.
Qed.

(** Otherwise it is a cell of the column and bounds every cell. *)
Lemma series_max_Fin (s : list float64) (m : R) :
  series_max s = Fin m ->
  In (Fin m) s /\ forall v, In (Fin v) s -> v <= m.
Proof.
  unfold series_max. revert m. induction s as [| x s IH]; simpl; intros m E.
  - discriminate.
  - destruct x as [| u]; simpl in E.
    + destruct (IH m E) as [Hin Hub]. split; [now right |].
      intros v [Hv | Hv]; [discriminate | auto].
    + destruct (fold_right fmax NaN s) as [| w] eqn:Es.
      * injection E as <-. split; [now left |].
        intros v [Hv | Hv]; [injection Hv as <-; lra |].
        apply (proj1 (series_max_NaN s)) with (x := Fin v) in Es;
          [discriminate | assumption].
      * injection E as <-. destruct (IH w eq_refl) as [Hin Hub]. split.
        -- unfold Rmax. destruct (Rle_dec u w); [now right | now left].
        -- intros v [Hv | Hv].
           ++ injection Hv as <-. apply Rmax_l.
           ++ apply Rle_trans with w; [auto | apply Rmax_r].
Qed.

Lemma series_max_present (s : list float64) :
  s <> [] -> (forall x, In x s -> x <> NaN) ->
  exists m, series_max s = Fin m.
Proof.
  intros Hne Hall. destruct (series_max s) as [| m] eqn:E.
  - destruct s as [| x s]; [contradiction |].
    assert (x = NaN) by (apply (proj1 (series_max_NaN (x :: s)) E); now left).
    exfalso. apply (Hall x); [now left | assumption].
  - now exists m.
Qed.

End SeriesMax.

(** ** Online date and days online *)

Section Anchoring.

Open Scope Z_scope.

Lemma combine_map_self {A B : Type} (f : A -> B) (l : list A) :
  combine l (map f l) = map (fun x => (x, f x)) l.
Proof. induction l as [| x l IH]; simpl; [| rewrite IH]; reflexivity. Qed.

Lemma fold_min_le_seed (seed : Z) (l : list Z) :
  fold_right Z.min seed l <= seed.
Proof. induction l as [| x l IH]; simpl; lia. Qed.

Lemma fold_min_le_each (seed : Z) (l : list Z) :
  forall x, In x l -> fold_right Z.min seed l <= x.
Proof.
  induction l as [| y l IH]; simpl; intros x [].
  - subst. lia.
  - specialize (IH x H). lia.
Qed.

Lemma fold_min_attained (seed : Z) (l : list Z) :
  fold_right Z.min seed l = seed \/ In (fold_right Z.min seed l) l.
Proof.
  induction l as [| y l IH]; simpl; [now left |].
  destruct (Z.min_spec y (fold_right Z.min seed l)) as [[_ ->] | [_ ->]].
  - right. now left.
  - destruct IH; [now left | right; now right].
Qed.

Lemma anchor_rows (csv : list reading) :
  let kept := remove_nan_and_zeroes_from_columns csv desired_product_type in
  anchor csv
  = map (fun r =>
           {| raw := r;
              Online_Date := online_date_of kept r;
              Days_Online :=
                Timestamp.days (ReportDate r - online_date_of kept r) |})
        kept.
Proof.
  intros kept. unfold anchor. fold kept.
  unfold get_min_or_max_value_in_column_by_group, generate_time_delta_column.
  rewrite combine_map_self. simpl aggregate.
  rewrite map_map. simpl. rewrite combine_map_self, map_map. simpl.
  reflexivity.
Qed.

Lemma group_rows_In (kept : list reading) (k : Z) (r : reading) :
  In r (group_rows kept API_WELLNO k) <-> In r kept /\ API_WELLNO r = k.
Proof.
  unfold group_rows. rewrite filter_In. now rewrite Z.eqb_eq.
Qed.

Lemma online_date_lower_bound (kept : list reading) (r r' : reading) :
  In r' kept -> API_WELLNO r' = API_WELLNO r ->
  online_date_of kept r <= ReportDate r'.
Proof.
  intros Hin Hapi. unfold online_date_of.
  apply fold_min_le_each. apply in_map. now apply group_rows_In.
Qed.

Lemma online_date_attained (kept : list reading) (r : reading) :
  In r kept ->
  exists r0, In r0 kept /\ API_WELLNO r0 = API_WELLNO r /\
             ReportDate r0 = online_date_of kept r.
Proof.
  intros Hin. unfold online_date_of.
  destruct (fold_min_attained (ReportDate r)
              (map ReportDate (group_rows kept API_WELLNO (API_WELLNO r))))
    as [E | Hm].
  - exists r. rewrite E. auto.
  - apply in_map_iff in Hm as (r0 & E & Hr0).
    apply group_rows_In in Hr0 as [Hk Hapi]. exists r0. auto.
Qed.

(** Rows of the same well get the same online date. *)
Lemma online_date_of_well (kept : list reading) (r r' : reading) :
  In r kept -> In r' kept -> API_WELLNO r = API_WELLNO r' ->
  online_date_of kept r = online_date_of kept r'.
Proof.
  intros Hr Hr' Hapi.
  destruct (online_date_attained kept r Hr) as (a & Ha & Hka & Ea).
  destruct (online_date_attained kept r' Hr') as (b & Hb & Hkb & Eb).
  pose proof (online_date_lower_bound kept r b Hb) as L1.
  pose proof (online_date_lower_bound kept r' a Ha) as L2.
  rewrite <- Ea, <- Eb in *.
  assert (ReportDate a <= ReportDate b) by (apply L1; congruence).
  assert (ReportDate b <= ReportDate a) by (apply L2; congruence).
  lia.
Qed.

Lemma days_quot (delta : Z) :
  0 <= delta ->
  Timestamp.days delta = Z.quot delta Timestamp.ns_per_day /\
  0 <= Timestamp.days delta.
Proof.
  intros H. unfold Timestamp.days. split.
  - symmetry. apply Z.quot_div_nonneg; [exact H | reflexivity].
  - apply Z.div_pos; [exact H | reflexivity].
Qed.

Lemma anchor_In (csv : list reading) (r : online_reading) :
  In r (anchor csv) ->
  let kept := remove_nan_and_zeroes_from_columns csv desired_product_type in
  In (raw r) kept /\
  Online_Date r = online_date_of kept (raw r) /\
  Days_Online r = Timestamp.days (ReportDate (raw r) - Online_Date r).
Proof.
  intros Hr kept. rewrite anchor_rows in Hr. fold kept in Hr.
  apply in_map_iff in Hr as (x & <- & Hx). simpl. auto.
Qed.

(** The rows that the driver hands to the estimator are those of one
    well, anchored at a common online date. *)
Lemma subset_one_well_series (csv : list reading) (api_number : Z) :
  one_well_series (subset (online_in_2016 (anchor csv)) api_number).
Proof.
  assert (Hsub : forall r,
             In r (subset (online_in_2016 (anchor csv)) api_number) ->
             In r (anchor csv) /\ API_WELLNO (raw r) = api_number).
  { intros r Hr. unfold subset, online_in_2016 in Hr.
    apply filter_In in Hr as [Hr Hapi]. apply filter_In in Hr as [Hr _].
    split; [exact Hr | now apply Z.eqb_eq]. }
  split.
  - intros r Hr. apply Hsub in Hr as [Hr _]. now apply anchor_In in Hr.
  - intros r r' Hr Hr'.
    apply Hsub in Hr as [Hr Hapi]. apply Hsub in Hr' as [Hr' Hapi'].
    apply anchor_In in Hr as (Hk & -> & _).
    apply anchor_In in Hr' as (Hk' & -> & _).
    apply online_date_of_well; congruence.
Qed.

Lemma january_february_kept :
  remove_nan_and_zeroes_from_columns january_february desired_product_type
  = january_february.
Proof.
  unfold remove_nan_and_zeroes_from_columns, january_february. simpl.
  destruct (Rlt_dec 0 90); [| lra].
  destruct (Rlt_dec 0 100); [| lra].
  reflexivity.
Qed.

End Anchoring.

(** C8.  After the cleaning, every retained observation is anchored: its
    online date is the least record date among the retained observations
    of its well, and its days online are the whole days from the online
    date to the record date, rounded towards zero, hence never negative.
    A first record on 2016-01-15 and a later one on 2016-02-14 give 0 and
    30 days. *)
Theorem anchored_observations :
  (forall csv : list reading,
      let kept := remove_nan_and_zeroes_from_columns csv desired_product_type in
      map raw (anchor csv) = kept /\
      forall r : online_reading,
        In r (anchor csv) ->
        (exists r0, In r0 kept /\
                    API_WELLNO r0 = API_WELLNO (raw r) /\
                    ReportDate r0 = Online_Date r) /\
        (forall r', In r' kept -> API_WELLNO r' = API_WELLNO (raw r) ->
                    (Online_Date r <= ReportDate r')%Z) /\
        Days_Online r
        = Z.quot (ReportDate (raw r) - Online_Date r) Timestamp.ns_per_day /\
        (0 <= Days_Online r)%Z) /\
  map Days_Online (anchor january_february) = [30%Z; 0%Z].
Proof.
  split.
  - intros csv kept. rewrite anchor_rows. fold kept. split.
    + rewrite map_map. simpl. apply map_id.
    + intros r Hr. apply in_map_iff in Hr as (x & <- & Hx). simpl.
      split; [now apply online_date_attained |].
      split; [intros r' Hr' Hapi; now apply online_date_lower_bound |].
      apply days_quot.
      pose proof (online_date_lower_bound kept x x Hx eq_refl). lia.
  - rewrite anchor_rows, january_february_kept. reflexivity.
Qed.

(** ** The initial-rate estimate *)

Lemma head_of_nat {Row : Type} (n : nat) (df : list Row) :
  head (Z.of_nat n) df = firstn n df.
Proof.
  unfold head. destruct (Z.leb 0 (Z.of_nat n)) eqn:E.
  - now rewrite Nat2Z.id.
  - apply Z.leb_gt in E. lia.
Qed.

Lemma get_max_initial_production_window {Row : Type}
    (df : list Row) (n : nat) (variable : Row -> float64) (date : Row -> Z) :
  get_max_initial_production df (Z.of_nat n) variable date
  = series_max (map variable (firstn n (sort_values date df))).
Proof. unfold get_max_initial_production. now rewrite head_of_nat. Qed.

Lemma window_maximum {Row : Type} (w : list Row) (variable : Row -> float64) :
  w <> [] -> (forall r, In r w -> variable r <> NaN) ->
  exists m,
    series_max (map variable w) = Fin m /\
    (exists r, In r w /\ variable r = Fin m) /\
    (forall r v, In r w -> variable r = Fin v -> (v <= m)%R).
Proof.
  intros Hne Hall.
  destruct (@series_max_present (map variable w)) as [m Hm].
  - destruct w; [contradiction | discriminate].
  - intros x Hx. apply in_map_iff in Hx as (r & <- & Hr). now apply Hall.
  - exists m. split; [exact Hm |].
    apply series_max_Fin in Hm as [Hin Hub]. split.
    + apply in_map_iff in Hin as (r & E & Hr). now exists r.
    + intros r v Hr Hv. apply Hub. rewrite <- Hv. now apply in_map.
Qed.

Lemma sorted_by_monotone_key {Row : Type} (k1 k2 : Row -> Z) (l : list Row) :
  (forall x y, In x l -> In y l -> key_le k1 x y -> key_le k2 x y) ->
  Sorted (key_le k1) l -> Sorted (key_le k2) l.
Proof.
  intros Hmono Hs. apply StronglySorted_Sorted.
  apply key_le_sorted_strongly in Hs.
  induction Hs as [| a l Hs IH Hall]; constructor.
  - apply IH. intros x y Hx Hy. apply Hmono; now right.
  - rewrite Forall_forall in *. intros y Hy.
    apply Hmono; [now left | now right | auto].
Qed.

Lemma days_monotone (x y : Z) : (x <= y)%Z -> (Timestamp.days x <= Timestamp.days y)%Z.
Proof.
  intros H. unfold Timestamp.days.
  apply Z.div_le_mono; [reflexivity | exact H].
Qed.

(** Sorting the rows of one well by date sorts them by days online. *)
Lemma sorted_by_elapsed_time (series : list online_reading) :
  one_well_series series ->
  Sorted (key_le Days_Online) (sort_values date_column series).
Proof.
  intros [Hdays Hanchor].
  apply sorted_by_monotone_key with (k1 := date_column);
    [| apply sort_values_sorted].
  intros x y Hx Hy Hxy.
  apply (Permutation_in _ (sort_values_perm date_column series)) in Hx, Hy.
  unfold key_le, date_column in *.
  rewrite (Hdays x Hx), (Hdays y Hy), (Hanchor x y Hx Hy).
  apply days_monotone. lia.
Qed.

(** The driver calls the solver twice per well, on the well's columns and
    with the boxes built from the initial-rate estimate, and on nothing
    else: two solvers that agree on these two calls show the same. *)
Lemma process_well_calls (curve_fit curve_fit' : solver)
    (bakken_data_2016 : list online_reading) (api_number : Z) :
  let series := subset bakken_data_2016 api_number in
  let qi := get_max_initial_production series 3 rate_column date_column in
  let xdata := map Days_Online series in
  let ydata := map rate_column series in
  curve_fit call_exponential xdata ydata (0%R, [qi; Fin 20])
  = curve_fit' call_exponential xdata ydata (0%R, [qi; Fin 20]) ->
  curve_fit call_hyperbolic xdata ydata (0%R, [qi; Fin 2; Fin 20])
  = curve_fit' call_hyperbolic xdata ydata (0%R, [qi; Fin 2; Fin 20]) ->
  process_well curve_fit bakken_data_2016 api_number
  = process_well curve_fit' bakken_data_2016 api_number.
Proof.
  intros series qi xdata ydata He Hh. unfold process_well.
  fold series. change (initial_rate series) with qi.
  unfold exponential_bounds, hyperbolic_bounds.
  change (map (fun r => desired_product_type (raw r)) series) with ydata.
  fold xdata. rewrite He, Hh. reflexivity.
Qed.

(** C10.  With at least one and fewer than N observations the window is
    the whole series: the estimate is the maximum over all observations,
    a value and not an error, and nothing is padded. *)
Theorem short_series_window
    (Row : Type) (df : list Row) (N : nat)
    (variable : Row -> float64) (date : Row -> Z) :
  (1 <= length df)%nat -> (length df < N)%nat ->
  head (Z.of_nat N) (sort_values date df) = sort_values date df /\
  get_max_initial_production df (Z.of_nat N) variable date
  = series_max (map variable df) /\
  ((forall r, In r df -> variable r <> NaN) ->
   exists m,
     get_max_initial_production df (Z.of_nat N) variable date = Fin m /\
     (exists r, In r df /\ variable r = Fin m) /\
     (forall r v, In r df -> variable r = Fin v -> (v <= m)%R)).
Proof.
  intros Hlen HN.
  assert (Hw : firstn N (sort_values date df) = sort_values date df).
  { apply firstn_all2. rewrite sort_values_length. lia. }
  assert (Hmax : get_max_initial_production df (Z.of_nat N) variable date
                 = series_max (map variable df)).
  { rewrite get_max_initial_production_window, Hw.
    apply series_max_perm, Permutation_map, sort_values_perm. }
  split; [now rewrite head_of_nat |].
  split; [exact Hmax |].
  intros Hall. rewrite Hmax. apply window_maximum; [| exact Hall].
  destruct df; [simpl in Hlen; lia | discriminate].
Qed.

Lemma short_series_window_two_months :
  (1 <= length two_months)%nat /\ (length two_months < 3)%nat /\
  get_max_initial_production two_months 3 snd fst
  = series_max (map snd two_months).
Proof.
  split; [simpl; lia |]. split; [simpl; lia |].
  apply (@short_series_window _ two_months 3 snd fst); simpl; lia.
Defined.

(** ** The driver *)

Section DriverFacts.

Lemma seq_lift_Ok {A B : Type} (a : A) (k : A -> out B) :
  seq (lift (Ok a)) k = k a.
Proof. unfold seq, lift. destruct (k a). reflexivity. Qed.

Lemma seq_lift_Raise {A B : Type} (e : exn) (k : A -> out B) :
  seq (lift (Raise e)) k = ([], Raise e).
Proof. reflexivity. Qed.

Lemma seq_emit {B : Type} (ev : event) (k : unit -> out B) :
  seq (emit ev) k = (ev :: fst (k tt), snd (k tt)).
Proof. unfold seq, emit. destruct (k tt). reflexivity. Qed.

Lemma seq_fst_In {A B : Type} (m : out A) (k : A -> out B) (ev : event) :
  In ev (fst (seq m k)) ->
  In ev (fst m) \/ exists a, snd m = Ok a /\ In ev (fst (k a)).
Proof.
  destruct m as [tr [a | e]]; simpl.
  - destruct (k a) as [tr' r] eqn:E. simpl. intros H.
    apply in_app_or in H as [H | H]; [now left |].
    right. exists a. rewrite E. auto.
  - now left.
Qed.

Variable curve_fit : solver.
Variable bakken_data_2016 : list online_reading.
Variable api_number : Z.

Let series := subset bakken_data_2016 api_number.
Let qi := initial_rate series.
Let xdata := map Days_Online series.
Let ydata := map rate_column series.

Lemma process_well_exponential_raises (e : exn) :
  curve_fit call_exponential xdata ydata (exponential_bounds qi) = Raise e ->
  process_well curve_fit bakken_data_2016 api_number = ([], Raise e).
Proof.
  intros He. unfold process_well. fold series. fold qi. fold xdata.
  change (map (fun r => desired_product_type (raw r)) series) with ydata.
  rewrite He. reflexivity.
Qed.

Lemma process_well_hyperbolic_raises (qe de : R) (ce : covariance) (e : exn) :
  curve_fit call_exponential xdata ydata (exponential_bounds qi)
  = Ok ([qe; de], ce) ->
  curve_fit call_hyperbolic xdata ydata (hyperbolic_bounds qi) = Raise e ->
  process_well curve_fit bakken_data_2016 api_number
  = ([PrintExponential qe de], Raise e).
Proof.
  intros He Hh. unfold process_well. fold series. fold qi. fold xdata.
  change (map (fun r => desired_product_type (raw r)) series) with ydata.
  rewrite He, Hh. rewrite seq_lift_Ok.
  cbn [fst item nth_error]. rewrite !seq_lift_Ok. rewrite seq_emit.
  rewrite seq_lift_Raise. reflexivity.
Qed.

Lemma process_well_succeeds (qe de qh bh dh : R) (ce ch : covariance) :
  curve_fit call_exponential xdata ydata (exponential_bounds qi)
  = Ok ([qe; de], ce) ->
  curve_fit call_hyperbolic xdata ydata (hyperbolic_bounds qi)
  = Ok ([qh; bh; dh], ch) ->
  process_well curve_fit bakken_data_2016 api_number
  = ([PrintExponential qe de; PrintHyperbolic qh bh dh;
      Plot api_number (map (predicted_row qe de qh bh dh) series)], Ok tt).
Proof.
  intros He Hh. unfold process_well. fold series. fold qi. fold xdata.
  change (map (fun r => desired_product_type (raw r)) series) with ydata.
  rewrite He, Hh.
  repeat (cbn [fst item nth_error] || rewrite seq_lift_Ok || rewrite seq_emit).
  reflexivity.
Qed.

(** Every printed line of a well shows what the solver returned for it. *)
Lemma process_well_printed (ev : event) :
  In ev (fst (process_well curve_fit bakken_data_2016 api_number)) ->
  match ev with
  | PrintExponential q d =>
      exists popt pcov,
        curve_fit call_exponential xdata ydata (exponential_bounds qi)
        = Ok (popt, pcov) /\
        nth_error popt 0 = Some q /\ nth_error popt 1 = Some d
  | PrintHyperbolic q b d =>
      exists popt pcov,
        curve_fit call_hyperbolic xdata ydata (hyperbolic_bounds qi)
        = Ok (popt, pcov) /\
        nth_error popt 0 = Some q /\ nth_error popt 1 = Some b /\
        nth_error popt 2 = Some d
  | Plot a _ => a = api_number
  end.
Proof.
  unfold process_well. fold series. fold qi. fold xdata.
  change (map (fun r => desired_product_type (raw r)) series) with ydata.
  destruct (curve_fit call_exponential xdata ydata (exponential_bounds qi))
    as [[pe ce] | e]; [| intros []].
  rewrite seq_lift_Ok. cbn [fst]. unfold item.
  destruct (nth_error pe 0) as [e0 |] eqn:E0; [| intros []].
  rewrite seq_lift_Ok.
  destruct (nth_error pe 1) as [e1 |] eqn:E1; [| intros []].
  rewrite seq_lift_Ok, seq_emit. cbn [fst]. intros [<- | H].
  { exists pe, ce. auto. }
  destruct (curve_fit call_hyperbolic xdata ydata (hyperbolic_bounds qi))
    as [[ph ch] | e]; [| destruct H].
  rewrite seq_lift_Ok in H. cbn [fst] in H.
  destruct (nth_error ph 0) as [h0 |] eqn:H0; [| destruct H].
  rewrite seq_lift_Ok in H.
  destruct (nth_error ph 1) as [h1 |] eqn:H1; [| destruct H].
  rewrite seq_lift_Ok in H.
  destruct (nth_error ph 2) as [h2 |] eqn:H2; [| destruct H].
  rewrite seq_lift_Ok, seq_emit in H. cbn [fst] in H.
  destruct H as [<- | H].
  { exists ph, ch. auto. }
  destruct pe as [| ? [| ? [| ? ?]]]; try destruct H.
  destruct ph as [| ? [| ? [| ? [| ? ?]]]]; try destruct H.
  - subst ev. reflexivity.
  - destruct H.
Qed.

End DriverFacts.

Section Loop.

Variable body : Z -> out unit.

Lemma for_each_events (l : list Z) (ev : event) :
  In ev (fst (for_each l body)) -> exists x, In x l /\ In ev (fst (body x)).
Proof.
  induction l as [| x l IH]; simpl; [intros [] |].
  intros H. apply seq_fst_In in H as [H | (_ & _ & H)].
  - exists x. auto.
  - destruct (IH H) as (y & Hy & Hev). exists y. auto.
Qed.

(** The loop stops at the first element whose body raises. *)
Lemma for_each_stops (pre post : list Z) (x : Z) (e : exn) :
  (forall p, In p pre -> snd (body p) = Ok tt) ->
  snd (body x) = Raise e ->
  for_each (pre ++ x :: post) body
  = (flat_map (fun p => fst (body p)) pre ++ fst (body x), Raise e).
Proof.
  intros Hpre Hx. induction pre as [| p pre IH]; simpl.
  - destruct (body x) as [tr r]. simpl in Hx. subst r. reflexivity.
  - rewrite IH by (intros q Hq; apply Hpre; now right).
    pose proof (Hpre p (or_introl eq_refl)) as Hp.
    destruct (body p) as [tr r]. simpl in Hp. subst r. simpl.
    now rewrite app_assoc.
Qed.

Lemma for_each_completes (l : list Z) :
  (forall p, In p l -> snd (body p) = Ok tt) ->
  for_each l body = (flat_map (fun p => fst (body p)) l, Ok tt).
Proof.
  intros Hl. induction l as [| p l IH]; simpl; [reflexivity |].
  rewrite IH by (intros q Hq; apply Hl; now right).
  pose proof (Hl p (or_introl eq_refl)) as Hp.
  destruct (body p) as [tr r]. simpl in Hp. subst r. reflexivity.
Qed.

End Loop.

(** C7.  The initial-rate estimator sorts the observations ascending (by
    date, which for the rows of one well is ascending elapsed time), takes
    the first N rows, a count of rows, and returns the maximum rate among
    them: a rate of the window that bounds every rate of the window when
    the set is non-empty and N is positive.  The rows the driver passes
    are those of one well; it asks for N = 3 and hands the value to both
    fits as the upper bound of qi, in the only two calls of the solver:
    what the exponential call with that box raises ends the body at once,
    what the hyperbolic call with that box raises ends it after the
    exponential line, and what the two calls return is what the body
    prints and plots. *)
Theorem initial_rate_estimator :
  (forall (Row : Type) (df : list Row) (N : nat)
          (variable : Row -> float64) (date : Row -> Z),
      let sorted := sort_values date df in
      let window := firstn N sorted in
      Permutation sorted df /\
      Sorted (key_le date) sorted /\
      get_max_initial_production df (Z.of_nat N) variable date
      = series_max (map variable window) /\
      (df <> [] -> (0 < N)%nat -> (forall r, In r df -> variable r <> NaN) ->
       exists m,
         get_max_initial_production df (Z.of_nat N) variable date = Fin m /\
         (exists r, In r window /\ variable r = Fin m) /\
         (forall r v, In r window -> variable r = Fin v -> (v <= m)%R))) /\
  (forall series : list online_reading,
      one_well_series series ->
      Sorted (key_le Days_Online) (sort_values date_column series)) /\
  (forall (csv : list reading) (api_number : Z),
      one_well_series (subset (online_in_2016 (anchor csv)) api_number)) /\
  (forall (curve_fit curve_fit' : solver)
          (bakken_data_2016 : list online_reading) (api_number : Z),
      let series := subset bakken_data_2016 api_number in
      let qi := get_max_initial_production series 3 rate_column date_column in
      let xdata := map Days_Online series in
      let ydata := map rate_column series in
      curve_fit call_exponential xdata ydata (0%R, [qi; Fin 20])
      = curve_fit' call_exponential xdata ydata (0%R, [qi; Fin 20]) ->
      curve_fit call_hyperbolic xdata ydata (0%R, [qi; Fin 2; Fin 20])
      = curve_fit' call_hyperbolic xdata ydata (0%R, [qi; Fin 2; Fin 20]) ->
      process_well curve_fit bakken_data_2016 api_number
      = process_well curve_fit' bakken_data_2016 api_number) /\
  (forall (curve_fit : solver) (bakken_data_2016 : list online_reading)
          (api_number : Z) (e : exn),
      let series := subset bakken_data_2016 api_number in
      let qi := get_max_initial_production series 3 rate_column date_column in
      let xdata := map Days_Online series in
      let ydata := map rate_column series in
      curve_fit call_exponential xdata ydata (0%R, [qi; Fin 20]) = Raise e ->
      process_well curve_fit bakken_data_2016 api_number = ([], Raise e)) /\
  (forall (curve_fit : solver) (bakken_data_2016 : list online_reading)
          (api_number : Z) (qe de : R) (ce : covariance) (e : exn),
      let series := subset bakken_data_2016 api_number in
      let qi := get_max_initial_production series 3 rate_column date_column in
      let xdata := map Days_Online series in
      let ydata := map rate_column series in
      curve_fit call_exponential xdata ydata (0%R, [qi; Fin 20])
      = Ok ([qe; de], ce) ->
      curve_fit call_hyperbolic xdata ydata (0%R, [qi; Fin 2; Fin 20])
      = Raise e ->
      process_well curve_fit bakken_data_2016 api_number
      = ([PrintExponential qe de], Raise e)) /\
  (forall (curve_fit : solver) (bakken_data_2016 : list online_reading)
          (api_number : Z) (qe de qh bh dh : R) (ce ch : covariance),
      let series := subset bakken_data_2016 api_number in
      let qi := get_max_initial_production series 3 rate_column date_column in
      let xdata := map Days_Online series in
      let ydata := map rate_column series in
      curve_fit call_exponential xdata ydata (0%R, [qi; Fin 20])
      = Ok ([qe; de], ce) ->
      curve_fit call_hyperbolic xdata ydata (0%R, [qi; Fin 2; Fin 20])
      = Ok ([qh; bh; dh], ch) ->
      process_well curve_fit bakken_data_2016 api_number
      = ([PrintExponential qe de; PrintHyperbolic qh bh dh;
          Plot api_number (map (predicted_row qe de qh bh dh) series)],
         Ok tt)).
Proof.
  split; [| split; [| split; [| split; [| split; [| split]]]]].
  - intros Row df N variable date sorted window.
    split; [apply sort_values_perm |].
    split; [apply sort_values_sorted |].
    split; [apply get_max_initial_production_window |].
    intros Hne HN Hall.
    rewrite get_max_initial_production_window. fold sorted. fold window.
    apply window_maximum.
    + unfold window, sorted. destruct N as [| N]; [lia |].
      destruct (sort_values date df) as [| x s] eqn:E; [| discriminate].
      exfalso. apply Hne. apply Permutation_nil.
      rewrite <- E. apply sort_values_perm.
    + intros r Hr. apply Hall.
      apply (Permutation_in _ (sort_values_perm date df)).
      rewrite <- (firstn_skipn N (sort_values date df)).
      apply in_or_app. now left.
  - apply sorted_by_elapsed_time.
  - apply subset_one_well_series.
  - apply process_well_calls.
  - intros curve_fit data api e series qi xdata ydata He.
    now apply process_well_exponential_raises.
  - intros curve_fit data api qe de ce e series qi xdata ydata He Hh.
    now apply process_well_hyperbolic_raises with (ce := ce).
  - intros curve_fit data api qe de qh bh dh ce ch series qi xdata ydata
      He Hh.
    now apply process_well_succeeds with (ce := ce) (ch := ch).
Qed.


(** ** The stand-in solver on the example tables *)

Section Examples.

Open Scope R_scope.

Lemma centres_admitted (lo : R) (his : list float64) (popt : list R) :
  centres lo his = Ok popt ->
  Forall2 (fun v hi => exists h, hi = Fin h /\ lo <= v <= h) popt his.
Proof.
  revert popt. induction his as [| hi his IH]; simpl; intros popt E.
  - injection E as <-. constructor.
  - destruct hi as [| h]; simpl in E; [discriminate |].
    destruct (Rlt_dec lo h) as [Hlt | _]; simpl in E; [| discriminate].
    destruct (centres lo his) as [cs | e]; simpl in E; [| discriminate].
    injection E as <-. constructor; [| now apply IH].
    exists h. split; [reflexivity | lra].
Qed.

Lemma centre_fit_respects_bounds : respects_bounds centre_fit.
Proof.
  intros f xdata ydata box popt pcov E. unfold centre_fit in E.
  destruct ydata as [| y ydata]; [discriminate |].
  destruct (centres (fst box) (snd box)) as [cs | e] eqn:Ec; simpl in E;
    [| discriminate].
  injection E as <- _. now apply centres_admitted.
Qed.

Lemma centre_fit_exponential (f : model_function) (xdata : list Z)
    (y : float64) (ydata : list float64) (q : R) :
  0 < q ->
  centre_fit f xdata (y :: ydata) (exponential_bounds (Fin q))
  = Ok ([q / 2; 10], []).
Proof.
  intros Hq. unfold centre_fit, exponential_bounds. simpl.
  destruct (Rlt_dec 0 q); [| lra].
  destruct (Rlt_dec 0 20); [| lra].
  simpl. do 2 f_equal. repeat f_equal; lra.
Qed.

Lemma centre_fit_hyperbolic (f : model_function) (xdata : list Z)
    (y : float64) (ydata : list float64) (q : R) :
  0 < q ->
  centre_fit f xdata (y :: ydata) (hyperbolic_bounds (Fin q))
  = Ok ([q / 2; 1; 10], []).
Proof.
  intros Hq. unfold centre_fit, hyperbolic_bounds. simpl.
  destruct (Rlt_dec 0 q); [| lra].
  destruct (Rlt_dec 0 2); [| lra].
  destruct (Rlt_dec 0 20); [| lra].
  simpl. do 2 f_equal. repeat f_equal; lra.
Qed.

Lemma single_observation_kept :
  remove_nan_and_zeroes_from_columns single_observation desired_product_type
  = single_observation.
Proof.
  unfold remove_nan_and_zeroes_from_columns, single_observation. simpl.
  destruct (Rlt_dec 0 100); [| lra]. reflexivity.
Qed.

Lemma single_observation_series :
  subset (online_in_2016 (anchor single_observation)) 33023013930000
  = [ {| raw := {| API_WELLNO := 33023013930000;
                   ReportDate := Timestamp.of_date 2016 1 15;
                   Oil := Fin 100; Gas := NaN |};
         Online_Date := Timestamp.of_date 2016 1 15;
         Days_Online := 0 |} ].
Proof. rewrite anchor_rows, single_observation_kept. reflexivity. Qed.

Lemma single_observation_other_wells (api_number : Z) :
  api_number <> 33023013930000%Z ->
  subset (online_in_2016 (anchor single_observation)) api_number = [].
Proof.
  intros H. rewrite anchor_rows, single_observation_kept.
  change (online_in_2016 _)
    with [ {| raw := {| API_WELLNO := 33023013930000;
                        ReportDate := Timestamp.of_date 2016 1 15;
                        Oil := Fin 100; Gas := NaN |};
              Online_Date := Timestamp.of_date 2016 1 15;
              Days_Online := 0 |} ].
  unfold subset. cbn [filter raw API_WELLNO].
  destruct (Z.eqb_spec 33023013930000 api_number); [congruence | reflexivity].
Qed.

Lemma single_observation_first_well :
  process_well centre_fit (online_in_2016 (anchor single_observation))
    33023013930000
  = ([PrintExponential (100 / 2) 10; PrintHyperbolic (100 / 2) 1 10;
      Plot 33023013930000
        (map (predicted_row (100 / 2) 10 (100 / 2) 1 10)
           (subset (online_in_2016 (anchor single_observation))
              33023013930000))],
     Ok tt).
Proof.
  apply process_well_succeeds with (ce := []) (ch := []);
    rewrite single_observation_series.
  - apply centre_fit_exponential. lra.
  - apply centre_fit_hyperbolic. lra.
Qed.

Lemma empty_series_raises (data : list online_reading) (api_number : Z) :
  subset data api_number = [] ->
  process_well centre_fit data api_number = ([], Raise ValueError).
Proof.
  intros E. apply process_well_exponential_raises. now rewrite E.
Qed.

Lemma single_observation_main :
  main centre_fit single_observation
  = ([PrintExponential (100 / 2) 10; PrintHyperbolic (100 / 2) 1 10;
      Plot 33023013930000
        (map (predicted_row (100 / 2) 10 (100 / 2) 1 10)
           (subset (online_in_2016 (anchor single_observation))
              33023013930000))],
     Raise ValueError).
Proof.
  unfold main.
  change unique_well_APIs_list
    with ([33023013930000%Z] ++ 33105039980000%Z
            :: [33105039970000; 33013018230000; 33013018220000]%Z).
  rewrite for_each_stops with (e := ValueError).
  - simpl flat_map. rewrite single_observation_first_well.
    rewrite empty_series_raises
      by (apply single_observation_other_wells; discriminate).
    reflexivity.
  - intros p [<- | []]. now rewrite single_observation_first_well.
  - rewrite empty_series_raises
      by (apply single_observation_other_wells; discriminate).
    reflexivity.
Qed.

Lemma second_well_only_kept :
  remove_nan_and_zeroes_from_columns second_well_only desired_product_type
  = second_well_only.
Proof.
  unfold remove_nan_and_zeroes_from_columns, second_well_only. simpl.
  destruct (Rlt_dec 0 100); [| lra].
  destruct (Rlt_dec 0 90); [| lra].
  reflexivity.
Qed.

Lemma second_well_only_first_series :
  subset (online_in_2016 (anchor second_well_only)) 33023013930000 = [].
Proof. rewrite anchor_rows, second_well_only_kept. reflexivity. Qed.

Lemma second_well_only_series :
  subset (online_in_2016 (anchor second_well_only)) 33105039980000
  = [ {| raw := {| API_WELLNO := 33105039980000;
                   ReportDate := Timestamp.of_date 2016 1 15;
                   Oil := Fin 100; Gas := NaN |};
         Online_Date := Timestamp.of_date 2016 1 15;
         Days_Online := 0 |};
      {| raw := {| API_WELLNO := 33105039980000;
                   ReportDate := Timestamp.of_date 2016 2 14;
                   Oil := Fin 90; Gas := NaN |};
         Online_Date := Timestamp.of_date 2016 1 15;
         Days_Online := 30 |} ].
Proof. rewrite anchor_rows, second_well_only_kept. reflexivity. Qed.

Lemma second_well_only_initial_rate :
  initial_rate (subset (online_in_2016 (anchor second_well_only))
                  33105039980000) = Fin 100.
Proof.
  rewrite second_well_only_series.
  unfold initial_rate, get_max_initial_production. simpl.
  f_equal. unfold Rmax. destruct (Rle_dec 100 90); lra.
Qed.

Lemma second_well_only_second_well :
  process_well centre_fit (online_in_2016 (anchor second_well_only))
    33105039980000
  = ([PrintExponential (100 / 2) 10; PrintHyperbolic (100 / 2) 1 10;
      Plot 33105039980000
        (map (predicted_row (100 / 2) 10 (100 / 2) 1 10)
           (subset (online_in_2016 (anchor second_well_only))
              33105039980000))],
     Ok tt).
Proof.
  apply process_well_succeeds with (ce := []) (ch := []);
    rewrite second_well_only_initial_rate, second_well_only_series.
  - apply centre_fit_exponential. lra.
  - apply centre_fit_hyperbolic. lra.
Qed.

Lemma second_well_only_main :
  main centre_fit second_well_only = ([], Raise ValueError).
Proof.
  unfold main. unfold unique_well_APIs_list. cbn [for_each].
  rewrite (empty_series_raises _ _ second_well_only_first_series).
  reflexivity.
Qed.

End Examples.

(** ** Fitted parameters and the bound boxes *)

Lemma admitted_upper_present (lo : R) (hi : float64) (his : list float64)
    (p : list R) :
  admitted (lo, hi :: his) p -> exists h, hi = Fin h.
Proof.
  unfold admitted. simpl. intros H.
  inversion H as [| v ? p' ? (h & E & _) _]; subst. now exists h.
Qed.

Lemma respecting_solver_in_box (curve_fit : solver)
    (data : list online_reading) (api_number : Z) :
  respects_bounds curve_fit ->
  Forall (in_box_of data api_number)
         (fst (process_well curve_fit data api_number)).
Proof.
  intros Hsolver. apply Forall_forall. intros ev Hev.
  apply process_well_printed in Hev.
  destruct ev as [q d | q b d | a rows]; simpl.
  - destruct Hev as (popt & pcov & Hfit & E0 & E1).
    apply Hsolver in Hfit.
    destruct (admitted_upper_present Hfit) as [qmax Hq].
    rewrite Hq in Hfit.
    apply admitted_exponential in Hfit as (q' & d' & -> & Bq & Bd).
    simpl in E0, E1. injection E0 as <-. injection E1 as <-.
    exists qmax. auto.
  - destruct Hev as (popt & pcov & Hfit & E0 & E1 & E2).
    apply Hsolver in Hfit.
    destruct (admitted_upper_present Hfit) as [qmax Hq].
    rewrite Hq in Hfit.
    apply admitted_hyperbolic in Hfit as (q' & b' & d' & -> & Bq & Bb & Bd).
    simpl in E0, E1, E2. injection E0 as <-. injection E1 as <-.
    injection E2 as <-.
    exists qmax. auto.
  - exact Hev.
Qed.

(** What [main] has shown is what the bodies of the first wells of the
    list have shown, in order. *)
Lemma for_each_prefix (body : Z -> out unit) (l : list Z) :
  exists processed rest,
    l = processed ++ rest /\
    fst (for_each l body) = flat_map (fun x => fst (body x)) processed.
Proof.
  induction l as [| x l (processed & rest & El & Etr)]; simpl.
  - exists [], []. auto.
  - destruct (body x) as [tr [[] | e]] eqn:Ex.
    + exists (x :: processed), rest. split; [now rewrite El |].
      simpl. rewrite Ex. simpl.
      destruct (for_each l body) as [tr' r]. simpl in *. now rewrite Etr.
    + exists [x], l. split; [reflexivity |]. simpl. rewrite Ex. simpl.
      now rewrite app_nil_r.
Qed.

Section SolverOfTheSpecification.

Open Scope R_scope.

Variable nm : numerics.
Variable lo : R.

Lemma upper_ends_spec (his : list float64) (hs : list R) :
  upper_ends lo his = Ok hs ->
  Forall2 (fun h hi => hi = Fin h /\ lo <= h) hs his.
Proof.
  revert hs. induction his as [| hi his IH]; simpl; intros hs E.
  - injection E as <-. constructor.
  - destruct hi as [| h]; [discriminate |].
    destruct (Rle_dec lo h) as [Hle | _]; [| discriminate].
    destruct (upper_ends lo his) as [hs' | e]; simpl in E; [| discriminate].
    injection E as <-. constructor; [auto | now apply IH].
Qed.

Lemma upper_ends_above (his : list float64) (hs : list R) :
  upper_ends lo his = Ok hs -> Forall (fun h => lo <= h) hs.
Proof.
  intros E. apply upper_ends_spec in E.
  induction E as [| h hi hs' his' [_ Hh] _ IH]; constructor; auto.
Qed.

Lemma midpoint_in_box (hs : list R) :
  Forall (fun h => lo <= h) hs ->
  Forall2 (fun v h => lo <= v <= h) (midpoint lo hs) hs.
Proof.
  induction 1 as [| h hs Hh _ IH]; simpl; constructor; [lra | exact IH].
Qed.

Lemma clip_in_bound (h x : R) : lo <= h -> lo <= clip lo h x <= h.
Proof.
  intros Hh. unfold clip. split.
  - apply Rmax_l.
  - apply Rmax_lub; [exact Hh | apply Rmin_r].
Qed.

Lemma propose_in_box (hs p dp : list R) :
  Forall (fun h => lo <= h) hs -> length p = length hs ->
  Forall2 (fun v h => lo <= v <= h) (propose lo hs p dp) hs.
Proof.
  intros Hhs. revert p dp.
  induction Hhs as [| h hs Hh _ IH]; intros p dp Hlen.
  - destruct p; [constructor | discriminate].
  - destruct p as [| v p]; [discriminate |]. simpl.
    constructor; [now apply clip_in_bound |].
    apply IH. simpl in Hlen. lia.
Qed.

Lemma iterate_in_box (f : model_function) (xdata : list Z)
    (ydata : list float64) (hs : list R) (budget : nat) :
  Forall (fun h => lo <= h) hs ->
  forall (p : list R) (lambda : R) (q : list R),
    Forall2 (fun v h => lo <= v <= h) p hs ->
    iterate nm f xdata ydata lo hs budget p lambda = Ok q ->
    Forall2 (fun v h => lo <= v <= h) q hs.
Proof.
  intros Hhs. induction budget as [| budget IH]; intros p lambda q Hp E;
    simpl in E; [discriminate |].
  destruct (cost f p (combine xdata ydata)) as [c | e]; simpl in E;
    [| discriminate].
  destruct (step nm f xdata ydata p lambda) as [dp | e]; simpl in E;
    [| discriminate].
  destruct (cost f (propose lo hs p dp) (combine xdata ydata)) as [c' | e];
    simpl in E; [| discriminate].
  assert (Hnext : Forall2 (fun v h => lo <= v <= h)
                    (if Rlt_dec c' c then propose lo hs p dp else p) hs).
  { destruct (Rlt_dec c' c); [| exact Hp].
    apply propose_in_box; [exact Hhs |].
    eapply Forall2_length; exact Hp. }
  destruct (converged nm dp c c').
  - injection E as <-. exact Hnext.
  - eapply IH; [exact Hnext | exact E].
Qed.

End SolverOfTheSpecification.

(** The solver of the specification keeps its answer inside the box it
    is handed, whatever its numerical routines do. *)
Lemma bounded_least_squares_respects_bounds (nm : numerics) :
  respects_bounds (bounded_least_squares nm).
Proof.
  intros f xdata ydata box popt pcov E. unfold bounded_least_squares in E.
  destruct (upper_ends (fst box) (snd box)) as [hs | e] eqn:Ehs;
    simpl in E; [| discriminate].
  destruct (iterate nm f xdata ydata (fst box) hs (max_iterations nm)
              (midpoint (fst box) hs) (lambda0 nm)) as [p | e] eqn:Ep;
    simpl in E; [| discriminate].
  injection E as <- _.
  assert (Hhs : Forall (fun h => (fst box <= h)%R) hs)
    by (now apply upper_ends_above with (his := snd box)).
  apply upper_ends_spec in Ehs.
  apply iterate_in_box in Ep; [| exact Hhs | now apply midpoint_in_box].
  unfold admitted. clear Hhs. revert p Ep.
  induction Ehs as [| h hi hs his [Ehi Hh] _ IH]; intros p Ep;
    inversion Ep; subst; constructor.
  - now exists h.
  - now apply IH.
Qed.

(** C4.  Every fit keeps every component of the parameter vector it
    returns inside its box, ends included, whatever the data: the solver
    starts from the midpoint of the box and clamps each proposal into it.
    So what the body of a well prints lies in the boxes [main] builds for
    that well: for the exponential fit 0 <= qi <= initial-rate estimate of
    the well and 0 <= di <= 20, for the hyperbolic fit also 0 <= b <= 2;
    and what [main] has shown is what the bodies of the first wells of its
    list have shown. *)
Theorem fitted_parameters_in_bounds :
  forall nm : numerics,
    (forall (f : model_function) (xdata : list Z) (ydata : list float64)
            (box : bounds) (popt : list R) (pcov : covariance),
        bounded_least_squares nm f xdata ydata box = Ok (popt, pcov) ->
        admitted box popt) /\
    (forall (csv : list reading) (api_number : Z),
        Forall (in_box_of (online_in_2016 (anchor csv)) api_number)
          (fst (process_well (bounded_least_squares nm)
                  (online_in_2016 (anchor csv)) api_number))) /\
    (forall csv : list reading,
        exists processed rest,
          unique_well_APIs_list = processed ++ rest /\
          fst (main (bounded_least_squares nm) csv)
          = flat_map
              (fun api_number =>
                 fst (process_well (bounded_least_squares nm)
                        (online_in_2016 (anchor csv)) api_number))
              processed).
Proof.
  intros nm. split; [| split].
  - apply bounded_least_squares_respects_bounds.
  - intros csv api_number. apply respecting_solver_in_box.
    apply bounded_least_squares_respects_bounds.
  - intros csv. unfold main. apply for_each_prefix.
Qed.

Section NoStep.

Open Scope R_scope.

Lemma numpy_hyperbolic_initial (qi b di : R) :
  fst (NumPy.hyperbolic_equation 0 qi b di) = NumPy.Num qi.
Proof.
  destruct (Req_dec_T b 0) as [-> | Hb].
  - now rewrite numpy_hyperbolic_at_zero_b.
  - unfold NumPy.hyperbolic_equation.
    rewrite numpy_div_nonzero by assumption.
    replace (1 + b * di * 0) with 1 by ring. unfold NumPy.pow.
    destruct (Req_dec_T (1 / b) 0) as [E | _].
    + unfold NumPy.div_value. rewrite numpy_div_nonzero by lra.
      simpl. f_equal. field.
    + destruct (Req_dec_T 1 0); [lra |].
      destruct (Rlt_dec 1 0); [lra |].
      unfold NumPy.div_value.
      assert (E1 : Rpower 1 (1 / b) = 1).
      { unfold Rpower. now rewrite ln_1, Rmult_0_r, exp_0. }
      rewrite E1, numpy_div_nonzero by lra. simpl. f_equal. field.
Qed.

(** With routines that make no step, the solver of the specification
    answers a point of the length of the box wherever the cost is
    defined. *)
Lemma no_step_answers (f : model_function) (xdata : list Z)
    (ydata : list float64) (lo : R) (his : list float64) (hs : list R) :
  upper_ends lo his = Ok hs ->
  (forall p, length p = length hs ->
             exists c, cost f p (combine xdata ydata) = Ok c) ->
  exists p,
    bounded_least_squares no_step f xdata ydata (lo, his) = Ok (p, []) /\
    length p = length hs.
Proof.
  intros Ehs Hcost. unfold bounded_least_squares. simpl fst. simpl snd.
  rewrite Ehs. simpl.
  assert (L0 : length (midpoint lo hs) = length hs)
    by (unfold midpoint; apply length_map).
  assert (Hhs : Forall (fun h => lo <= h) hs)
    by (now apply upper_ends_above with (his := his)).
  assert (L1 : length (propose lo hs (midpoint lo hs) []) = length hs).
  { eapply Forall2_length. apply propose_in_box; assumption. }
  destruct (Hcost _ L0) as [c ->]. simpl.
  destruct (Hcost _ L1) as [c' ->]. simpl.
  destruct (Rlt_dec c' c); eexists; split; try reflexivity; assumption.
Qed.

Lemma no_step_single_observation :
  exists qe de qh bh dh,
    process_well (bounded_least_squares no_step)
      (online_in_2016 (anchor single_observation)) 33023013930000
    = ([PrintExponential qe de; PrintHyperbolic qh bh dh;
        Plot 33023013930000
          (map (predicted_row qe de qh bh dh)
             (subset (online_in_2016 (anchor single_observation))
                33023013930000))],
       Ok tt).
Proof.
  assert (Hup2 : upper_ends 0 [Fin 100; Fin 20] = Ok [100; 20]).
  { simpl. destruct (Rle_dec 0 100); [| lra].
    destruct (Rle_dec 0 20); [reflexivity | lra]. }
  assert (Hup3 : upper_ends 0 [Fin 100; Fin 2; Fin 20] = Ok [100; 2; 20]).
  { simpl. destruct (Rle_dec 0 100); [| lra].
    destruct (Rle_dec 0 2); [| lra].
    destruct (Rle_dec 0 20); [reflexivity | lra]. }
  destruct (@no_step_answers call_exponential [0%Z] [Fin 100] 0
              [Fin 100; Fin 20] [100; 20] Hup2) as (pe & Ee & Le).
  { intros p Hp. destruct p as [| a [| b [| ? ?]]]; try discriminate.
    simpl. eexists. reflexivity. }
  destruct (@no_step_answers call_hyperbolic [0%Z] [Fin 100] 0
              [Fin 100; Fin 2; Fin 20] [100; 2; 20] Hup3) as (ph & Eh & Lh).
  { intros p Hp. destruct p as [| a [| b [| c [| ? ?]]]]; try discriminate.
    simpl. rewrite numpy_hyperbolic_initial. simpl. eexists. reflexivity. }
  destruct pe as [| qe [| de [| ? ?]]]; try discriminate.
  destruct ph as [| qh [| bh [| dh [| ? ?]]]]; try discriminate.
  exists qe, de, qh, bh, dh.
  apply process_well_succeeds with (ce := []) (ch := []);
    rewrite single_observation_series.
  - exact Ee.
  - exact Eh.
Qed.

End NoStep.

Lemma fitted_parameters_in_bounds_single_observation :
  exists qe de,
    In (PrintExponential qe de)
       (fst (process_well (bounded_least_squares no_step)
               (online_in_2016 (anchor single_observation))
               33023013930000)) /\
    (0 <= qe <= 100)%R /\ (0 <= de <= 20)%R.
Proof.
  destruct no_step_single_observation as (qe & de & qh & bh & dh & E).
  exists qe, de.
  pose proof (proj1 (proj2 (fitted_parameters_in_bounds no_step))
                single_observation 33023013930000%Z) as H.
  rewrite E in H. rewrite E. simpl fst in *.
  split; [now left |].
  apply Forall_inv in H. simpl in H.
  destruct H as (qmax & Hq & Bq & Bd).
  rewrite single_observation_series in Hq.
  assert (Eq : qmax = 100%R) by (injection Hq; auto).
  rewrite <- Eq. auto.
Defined.

(** ** Short series and failures *)

(** C1, as the code has it.  The code knows no data-sufficiency error.
    The initial-rate estimate of zero observations is the missing value,
    returned and not raised.  Whatever the number of observations of a
    well, the driver calls the solver for both models: when both calls
    return, their parameters are printed and plotted, and when a call
    raises, the solver's own exception leaves the loop body. *)
Theorem no_data_sufficiency_check :
  (forall (Row : Type) (n : Z) (variable : Row -> float64) (date : Row -> Z),
      get_max_initial_production [] n variable date = NaN) /\
  (forall (curve_fit : solver) (data : list online_reading) (api_number : Z)
          (qe de qh bh dh : R) (ce ch : covariance),
      let series := subset data api_number in
      let xdata := map Days_Online series in
      let ydata := map rate_column series in
      curve_fit call_exponential xdata ydata
        (exponential_bounds (initial_rate series)) = Ok ([qe; de], ce) ->
      curve_fit call_hyperbolic xdata ydata
        (hyperbolic_bounds (initial_rate series)) = Ok ([qh; bh; dh], ch) ->
      process_well curve_fit data api_number
      = ([PrintExponential qe de; PrintHyperbolic qh bh dh;
          Plot api_number (map (predicted_row qe de qh bh dh) series)],
         Ok tt)) /\
  (forall (curve_fit : solver) (data : list online_reading) (api_number : Z)
          (e : exn),
      let series := subset data api_number in
      let xdata := map Days_Online series in
      let ydata := map rate_column series in
      curve_fit call_exponential xdata ydata
        (exponential_bounds (initial_rate series)) = Raise e ->
      process_well curve_fit data api_number = ([], Raise e)) /\
  (forall (curve_fit : solver) (data : list online_reading) (api_number : Z)
          (qe de : R) (ce : covariance) (e : exn),
      let series := subset data api_number in
      let xdata := map Days_Online series in
      let ydata := map rate_column series in
      curve_fit call_exponential xdata ydata
        (exponential_bounds (initial_rate series)) = Ok ([qe; de], ce) ->
      curve_fit call_hyperbolic xdata ydata
        (hyperbolic_bounds (initial_rate series)) = Raise e ->
      process_well curve_fit data api_number
      = ([PrintExponential qe de], Raise e)).
Proof.
  split; [| split; [| split]].
  - intros Row n variable date. unfold get_max_initial_production, head.
    simpl. destruct (Z.leb 0 n); try rewrite firstn_nil; reflexivity.
  - intros. now apply process_well_succeeds with (ce := ce) (ch := ch).
  - intros. now apply process_well_exponential_raises.
  - intros. now apply process_well_hyperbolic_raises with (ce := ce).
Qed.

(** C1, as the specification words it, fails.  The estimate of an empty
    series is NaN, and a well with a single observation is fitted with
    the three-parameter hyperbolic model like any other: the solver is
    called, its parameters are printed and plotted, and the body ends
    normally. *)
Lemma single_observation_is_fitted :
  initial_rate [] = NaN /\
  length (subset (online_in_2016 (anchor single_observation)) 33023013930000)
  = 1%nat /\
  process_well centre_fit (online_in_2016 (anchor single_observation))
    33023013930000
  = ([PrintExponential (100 / 2) 10; PrintHyperbolic (100 / 2) 1 10;
      Plot 33023013930000
        (map (predicted_row (100 / 2) 10 (100 / 2) 1 10)
           (subset (online_in_2016 (anchor single_observation))
              33023013930000))],
     Ok tt).
Proof.
  split; [reflexivity |].
  split; [now rewrite single_observation_series |].
  apply single_observation_first_well.
Qed.

(** C3, as the code has it.  Nothing catches a failure.  Within a well,
    an exception of the exponential fit leaves the body before the
    hyperbolic fit is tried, and an exception of the hyperbolic fit
    leaves it after the exponential line was printed.  In the batch, the
    first well whose body raises ends [main] with that exception: what was
    shown for the wells before it and by the failing body so far is all
    the output, and the wells after it are not processed. *)
Theorem failure_ends_the_batch
    (curve_fit : solver) (csv : list reading)
    (pre post : list Z) (api_number : Z) (e : exn) :
  let data := online_in_2016 (anchor csv) in
  unique_well_APIs_list = pre ++ api_number :: post ->
  (forall p, In p pre -> snd (process_well curve_fit data p) = Ok tt) ->
  snd (process_well curve_fit data api_number) = Raise e ->
  main curve_fit csv
  = (flat_map (fun p => fst (process_well curve_fit data p)) pre
       ++ fst (process_well curve_fit data api_number),
     Raise e) /\
  (forall e',
      curve_fit call_exponential
        (map Days_Online (subset data api_number))
        (map rate_column (subset data api_number))
        (exponential_bounds (initial_rate (subset data api_number)))
      = Raise e' ->
      process_well curve_fit data api_number = ([], Raise e')) /\
  (forall qe de ce e',
      curve_fit call_exponential
        (map Days_Online (subset data api_number))
        (map rate_column (subset data api_number))
        (exponential_bounds (initial_rate (subset data api_number)))
      = Ok ([qe; de], ce) ->
      curve_fit call_hyperbolic
        (map Days_Online (subset data api_number))
        (map rate_column (subset data api_number))
        (hyperbolic_bounds (initial_rate (subset data api_number)))
      = Raise e' ->
      process_well curve_fit data api_number
      = ([PrintExponential qe de], Raise e')).
Proof.
  intros data Hlist Hpre Hfail. split; [| split].
  - unfold main. fold data. rewrite Hlist.
    now apply for_each_stops.
  - intros e' He. now apply process_well_exponential_raises.
  - intros qe de ce e' He Hh.
    now apply process_well_hyperbolic_raises with (ce := ce).
Qed.

Lemma failure_ends_the_batch_second_well_only :
  main centre_fit second_well_only
  = ([] ++ fst (process_well centre_fit
                  (online_in_2016 (anchor second_well_only)) 33023013930000),
     Raise ValueError).
Proof.
  refine (proj1 (@failure_ends_the_batch centre_fit second_well_only []
                   [33105039980000; 33105039970000;
                    33013018230000; 33013018220000]%Z
                   33023013930000%Z ValueError eq_refl _ _)).
  - intros p [].
  - now rewrite (empty_series_raises _ _ second_well_only_first_series).
Defined.

(** C3, as the specification words it, fails.  On a table that holds
    the second well of the list and nothing of the first, the fit of the
    first well raises and [main] ends there with that exception and no
    output, although the second well, taken alone, is fitted without any
    failure. *)
Lemma one_failure_aborts_the_batch :
  main centre_fit second_well_only = ([], Raise ValueError) /\
  process_well centre_fit (online_in_2016 (anchor second_well_only))
    33105039980000
  = ([PrintExponential (100 / 2) 10; PrintHyperbolic (100 / 2) 1 10;
      Plot 33105039980000
        (map (predicted_row (100 / 2) 10 (100 / 2) 1 10)
           (subset (online_in_2016 (anchor second_well_only))
              33105039980000))],
     Ok tt).
Proof.
  split.
  - apply second_well_only_main.
  - apply second_well_only_second_well.
Qed.

(** * Further properties of the frame operations *)

(** ** The record filter, composed *)

Section FilterFacts.

Variable Row : Type.

Lemma filter_twice (p : Row -> bool) (l : list Row) :
  filter p (filter p l) = filter p l.
Proof.
  induction l as [| x l IH]; simpl; [reflexivity |].
  destruct (p x) eqn:E; simpl; [rewrite E, IH |]; auto.
Qed.

Lemma filter_swap (p q : Row -> bool) (l : list Row) :
  filter q (filter p l) = filter p (filter q l).
Proof.
  induction l as [| x l IH]; simpl; [reflexivity |].
  destruct (p x) eqn:Ep, (q x) eqn:Eq; simpl;
    rewrite ?Ep, ?Eq, IH; reflexivity.
Qed.

Lemma filter_shorter (p : Row -> bool) (l : list Row) :
  (length (filter p l) <= length l)%nat.
Proof.
  induction l as [| x l IH]; simpl; [lia |].
  destruct (p x); simpl; lia.
Qed.

End FilterFacts.

(** Cleaning a frame that is already clean changes nothing, cleaning on
    two columns gives the same frame in either order, and cleaning never
    adds a row. *)
Theorem record_filter_composes :
  forall (Row : Type) (df : list Row) (v w : Row -> float64),
    remove_nan_and_zeroes_from_columns
      (remove_nan_and_zeroes_from_columns df v) v
    = remove_nan_and_zeroes_from_columns df v /\
    remove_nan_and_zeroes_from_columns
      (remove_nan_and_zeroes_from_columns df v) w
    = remove_nan_and_zeroes_from_columns
        (remove_nan_and_zeroes_from_columns df w) v /\
    (length (remove_nan_and_zeroes_from_columns df v) <= length df)%nat.
Proof.
  intros Row df v w. unfold remove_nan_and_zeroes_from_columns.
  split; [apply filter_twice |].
  split; [apply filter_swap | apply filter_shorter].
Qed.

(** ** The group-wise minimum and maximum *)

Section GroupTransform.

Open Scope Z_scope.

Lemma fold_max_ge_each (seed : Z) (l : list Z) :
  forall x, In x l -> x <= fold_right Z.max seed l.
Proof.
  induction l as [| y l IH]; simpl; intros x [].
  - subst. lia.
  - specialize (IH x H). lia.
Qed.

Lemma fold_max_attained (seed : Z) (l : list Z) :
  fold_right Z.max seed l = seed \/ In (fold_right Z.max seed l) l.
Proof.
  induction l as [| y l IH]; simpl; [now left |].
  destruct (Z.max_spec y (fold_right Z.max seed l)) as [[_ ->] | [_ ->]].
  - destruct IH; [now left | right; now right].
  - right. now left.
Qed.

Variable Row : Type.
Variables group_by_column calc_column : Row -> Z.
Variable dataframe : list Row.

(** The value the transform gives the row [r]. *)
Lemma transform_at (c : calc_type) (i : nat) (r : Row) :
  nth_error dataframe i = Some r ->
  nth_error
    (get_min_or_max_value_in_column_by_group
       dataframe group_by_column calc_column c) i
  = Some (fold_right (aggregate c) (calc_column r)
            (map calc_column
               (group_rows dataframe group_by_column (group_by_column r)))).
Proof.
  intros H. unfold get_min_or_max_value_in_column_by_group.
  rewrite nth_error_map, H. reflexivity.
Qed.

Lemma group_rows_member (k : Z) (r : Row) :
  In r (group_rows dataframe group_by_column k) <->
  In r dataframe /\ group_by_column r = k.
Proof. unfold group_rows. rewrite filter_In. now rewrite Z.eqb_eq. Qed.

Lemma transform_attained (c : calc_type) (r : Row) :
  In r dataframe ->
  exists r0,
    In r0 dataframe /\ group_by_column r0 = group_by_column r /\
    calc_column r0
    = fold_right (aggregate c) (calc_column r)
        (map calc_column
           (group_rows dataframe group_by_column (group_by_column r))).
Proof.
  intros Hr.
  set (vs := map calc_column
               (group_rows dataframe group_by_column (group_by_column r))).
  assert (H : fold_right (aggregate c) (calc_column r) vs = calc_column r \/
              In (fold_right (aggregate c) (calc_column r) vs) vs).
  { destruct c; [apply fold_min_attained | apply fold_max_attained]. }
  destruct H as [E | Hin].
  - exists r. rewrite E. auto.
  - apply in_map_iff in Hin as (r0 & E & Hr0).
    apply group_rows_member in Hr0 as [H0 Hk]. exists r0. auto.
Qed.

Lemma transform_bound (c : calc_type) (r r' : Row) :
  In r' dataframe -> group_by_column r' = group_by_column r ->
  let v := fold_right (aggregate c) (calc_column r)
             (map calc_column
                (group_rows dataframe group_by_column (group_by_column r))) in
  match c with
  | calc_min => v <= calc_column r'
  | calc_max => calc_column r' <= v
  end.
Proof.
  intros Hr' Hk v.
  assert (Hin : In (calc_column r')
                   (map calc_column
                      (group_rows dataframe group_by_column
                         (group_by_column r)))).
  { apply in_map. now apply group_rows_member. }
  destruct c; [now apply fold_min_le_each | now apply fold_max_ge_each].
Qed.

End GroupTransform.

(** The group transform returns one value per row, in row order: the value
    of a row is a value of the computed column taken in the row's group,
    the least one for 'min' and the greatest one for 'max'. *)
Theorem group_transform_extremum :
  forall (Row : Type) (dataframe : list Row)
         (group_by_column calc_column : Row -> Z) (c : calc_type),
    let value :=
      get_min_or_max_value_in_column_by_group
        dataframe group_by_column calc_column c in
    length value = length dataframe /\
    forall (i : nat) (r : Row),
      nth_error dataframe i = Some r ->
      exists v,
        nth_error value i = Some v /\
        (exists r0, In r0 dataframe /\
                    group_by_column r0 = group_by_column r /\
                    calc_column r0 = v) /\
        (forall r', In r' dataframe ->
                    group_by_column r' = group_by_column r ->
                    match c with
                    | calc_min => (v <= calc_column r')%Z
                    | calc_max => (calc_column r' <= v)%Z
                    end).
Proof.
  intros Row dataframe group_by_column calc_column c value. split.
  - unfold value, get_min_or_max_value_in_column_by_group.
    apply length_map.
  - intros i r Hi. eexists.
    split; [exact (transform_at group_by_column calc_column dataframe c i Hi) |].
    split.
    + apply transform_attained. eapply nth_error_In; eassumption.
    + intros r' Hr' Hk. now apply transform_bound.
Qed.

(** Two rows of the same group get the same value. *)
Theorem group_transform_constant_on_group
    (Row : Type) (dataframe : list Row)
    (group_by_column calc_column : Row -> Z) (c : calc_type)
    (i j : nat) (r r' : Row) :
  nth_error dataframe i = Some r ->
  nth_error dataframe j = Some r' ->
  group_by_column r = group_by_column r' ->
  nth_error (get_min_or_max_value_in_column_by_group
               dataframe group_by_column calc_column c) i
  = nth_error (get_min_or_max_value_in_column_by_group
                 dataframe group_by_column calc_column c) j.
Proof.
  intros Hi Hj Hk.
  rewrite (transform_at group_by_column calc_column dataframe c i Hi).
  rewrite (transform_at group_by_column calc_column dataframe c j Hj).
  f_equal.
  assert (Hr : In r dataframe) by (eapply nth_error_In; eassumption).
  assert (Hr' : In r' dataframe) by (eapply nth_error_In; eassumption).
  destruct (transform_attained group_by_column calc_column dataframe c r Hr)
    as (a & Ha & Hka & Ea).
  destruct (transform_attained group_by_column calc_column dataframe c r' Hr')
    as (b & Hb & Hkb & Eb).
  pose proof (@transform_bound _ group_by_column calc_column dataframe
                c r b Hb) as L1.
  pose proof (@transform_bound _ group_by_column calc_column dataframe
                c r' a Ha) as L2.
  assert (K1 : group_by_column b = group_by_column r) by congruence.
  assert (K2 : group_by_column a = group_by_column r') by congruence.
  specialize (L1 K1). specialize (L2 K2). simpl in L1, L2.
  rewrite <- Ea, <- Eb in *.
  destruct c; lia.
Qed.

Lemma group_transform_constant_on_group_example :
  nth_error (get_min_or_max_value_in_column_by_group
               [(7, 30); (8, 5); (7, 10)]%Z fst snd calc_max) 0
  = nth_error (get_min_or_max_value_in_column_by_group
                 [(7, 30); (8, 5); (7, 10)]%Z fst snd calc_max) 2.
Proof.
  exact (@group_transform_constant_on_group _ [(7, 30); (8, 5); (7, 10)]%Z
           fst snd calc_max 0 2 (7, 30)%Z (7, 10)%Z
           eq_refl eq_refl eq_refl).
Defined.

(** ** Whole days of a difference of dates *)

Lemma days_floor (delta : Z) :
  (Timestamp.days delta * Timestamp.ns_per_day <= delta
   < (Timestamp.days delta + 1) * Timestamp.ns_per_day)%Z.
Proof.
  unfold Timestamp.days.
  assert (H : (0 < Timestamp.ns_per_day)%Z) by reflexivity.
  pose proof (Z.div_mod delta Timestamp.ns_per_day) as E.
  pose proof (Z.mod_pos_bound delta Timestamp.ns_per_day H) as B.
  nia.
Qed.

(** The column of days has one entry per row: the whole days from the
    online date to the record date, rounded towards minus infinity, so a
    record dated before the online date gets a negative count and any
    other record a count that is not negative. *)
Theorem time_delta_whole_days :
  forall (Row : Type) (df : list Row)
         (time_column date_first_online_column : Row -> Z),
    let value :=
      generate_time_delta_column df time_column date_first_online_column in
    length value = length df /\
    forall (i : nat) (r : Row),
      nth_error df i = Some r ->
      exists d,
        nth_error value i = Some d /\
        (d * Timestamp.ns_per_day
         <= time_column r - date_first_online_column r
         < (d + 1) * Timestamp.ns_per_day)%Z /\
        ((time_column r < date_first_online_column r)%Z -> (d < 0)%Z) /\
        ((date_first_online_column r <= time_column r)%Z -> (0 <= d)%Z).
Proof.
  intros Row df time_column date_first_online_column value. split.
  - unfold value, generate_time_delta_column. apply length_map.
  - intros i r Hi.
    exists (Timestamp.days (time_column r - date_first_online_column r)).
    split.
    + unfold value, generate_time_delta_column.
      rewrite nth_error_map, Hi. reflexivity.
    + pose proof (days_floor (time_column r - date_first_online_column r))
        as F.
      assert (H : (0 < Timestamp.ns_per_day)%Z) by reflexivity.
      split; [exact F |]. split; intros; nia.
Qed.

(** ** More on the initial-rate estimate *)

Section EstimateFacts.

Open Scope R_scope.

Lemma series_max_app (s s' : list float64) :
  series_max (s ++ s') = fmax (series_max s) (series_max s').
Proof.
  unfold series_max. induction s as [| x s IH]; simpl.
  - destruct (fold_right fmax NaN s'); reflexivity.
  - rewrite IH. apply fmax_assoc.
Qed.

Lemma fmax_grows (a : R) (y : float64) :
  exists b, fmax (Fin a) y = Fin b /\ a <= b.
Proof.
  destruct y as [| v]; simpl.
  - exists a. split; [reflexivity | lra].
  - exists (Rmax a v). split; [reflexivity | apply Rmax_l].
Qed.

Lemma firstn_extend {A : Type} (l : list A) (n m : nat) :
  (n <= m)%nat -> exists rest, firstn m l = firstn n l ++ rest.
Proof.
  revert l m. induction n as [| n IH]; intros l m H.
  - now exists (firstn m l).
  - destruct m as [| m]; [lia |]. destruct l as [| x l].
    + now exists [].
    + destruct (IH l m) as [rest E]; [lia |].
      exists rest. simpl. now rewrite E.
Qed.

Lemma insert_by_sorted_head {Row : Type} (key : Row -> Z) (r : Row)
    (l : list Row) :
  HdRel (key_le key) r l -> insert_by key r l = r :: l.
Proof.
  intros H. destruct l as [| x l]; simpl; [reflexivity |].
  inversion H as [| ? ? Hrx]; subst. unfold key_le in Hrx.
  apply Z.leb_le in Hrx. now rewrite Hrx.
Qed.

Lemma sort_values_of_sorted {Row : Type} (key : Row -> Z) (l : list Row) :
  Sorted (key_le key) l -> sort_values key l = l.
Proof.
  induction 1 as [| x l Hs IH Hhd]; simpl; [reflexivity |].
  rewrite IH. now apply insert_by_sorted_head.
Qed.

(** Two sorted frames with the same rows and no repeated key are the
    same frame. *)
Lemma sorted_frames_equal {Row : Type} (key : Row -> Z) (l l' : list Row) :
  StronglySorted (key_le key) l -> StronglySorted (key_le key) l' ->
  Permutation l l' -> NoDup (map key l) -> l = l'.
Proof.
  intros Hs. revert l'.
  induction Hs as [| a l Hs IH Ha]; intros l' Hs' Hperm Hnd.
  - apply Permutation_nil in Hperm. now subst.
  - destruct l' as [| b l'].
    { apply Permutation_sym, Permutation_nil in Hperm. discriminate. }
    inversion Hs' as [| ? ? Hs'' Hb]; subst.
    inversion Hnd as [| ? ? Hnotin Hnd']; subst.
    rewrite Forall_forall in Ha, Hb.
    assert (Hab : a = b).
    { assert (Ina : In a (b :: l'))
        by (apply (Permutation_in _ Hperm); now left).
      assert (Inb : In b (a :: l))
        by (apply (Permutation_in _ (Permutation_sym Hperm)); now left).
      destruct Ina as [E | Ina]; [now subst |].
      destruct Inb as [E | Inb]; [now subst |].
      exfalso. apply Hnotin.
      pose proof (Ha b Inb) as L1. pose proof (Hb a Ina) as L2.
      unfold key_le in L1, L2.
      replace (key a) with (key b) by lia. now apply in_map. }
    subst b. f_equal. apply IH; try assumption.
    now apply Permutation_cons_inv in Hperm.
Qed.

End EstimateFacts.

(** The estimate is the missing value exactly when every rate of the
    window is missing, as it is when the window has no row: a window of
    size zero or a frame without rows give NaN, not an error. *)
Theorem estimate_missing :
  forall (Row : Type) (df : list Row) (n : Z)
         (variable : Row -> float64) (date : Row -> Z),
    (get_max_initial_production df n variable date = NaN <->
     forall r, In r (head n (sort_values date df)) -> variable r = NaN) /\
    get_max_initial_production df 0 variable date = NaN.
Proof.
  intros Row df n variable date. split.
  - unfold get_max_initial_production. rewrite series_max_NaN. split.
    + intros H r Hr. apply H. now apply in_map.
    + intros H x Hx. apply in_map_iff in Hx as (r & <- & Hr). now apply H.
  - reflexivity.
Qed.

(** A larger window never lowers the estimate: when the estimate over
    the first N rows is a number, the estimate over the first M >= N rows
    is a number that is at least as large. *)
Theorem estimate_grows_with_window
    (Row : Type) (df : list Row) (N M : nat)
    (variable : Row -> float64) (date : Row -> Z) (a : R) :
  (N <= M)%nat ->
  get_max_initial_production df (Z.of_nat N) variable date = Fin a ->
  exists b,
    get_max_initial_production df (Z.of_nat M) variable date = Fin b /\
    (a <= b)%R.
Proof.
  intros HNM Ha. rewrite get_max_initial_production_window in *.
  set (s := sort_values date df) in *.
  destruct (firstn_extend s HNM) as [rest E].
  rewrite E, map_app, series_max_app, Ha. apply fmax_grows.
Qed.

Lemma estimate_grows_with_window_two_months :
  exists b,
    get_max_initial_production two_months 2 snd fst = Fin b /\
    (120 <= b)%R.
Proof.
  exact (@estimate_grows_with_window _ two_months 1 2 snd fst 120%R
           (le_S 1 1 (le_n 1)) eq_refl).
Defined.

(** On a frame that is already in ascending order of the date column
    and in which no two rows share a date, the estimate is the maximum
    rate over the first N rows as they stand: such a frame is the only
    ascending arrangement of its rows, so that sorting returns it. *)
Theorem estimate_of_sorted_frame
    (Row : Type) (df : list Row) (N : nat)
    (variable : Row -> float64) (date : Row -> Z) :
  Sorted (key_le date) df -> NoDup (map date df) ->
  (forall df' : list Row,
      Permutation df' df -> Sorted (key_le date) df' -> df' = df) /\
  get_max_initial_production df (Z.of_nat N) variable date
  = series_max (map variable (firstn N df)).
Proof.
  intros Hs Hnd. split.
  - intros df' Hperm Hs'. symmetry.
    apply sorted_frames_equal with (key := date);
      [now apply key_le_sorted_strongly | now apply key_le_sorted_strongly
      | now apply Permutation_sym | exact Hnd].
  - rewrite get_max_initial_production_window.
    now rewrite sort_values_of_sorted.
Qed.

Lemma estimate_of_sorted_frame_two_months :
  get_max_initial_production (rev two_months) 1 snd fst
  = series_max (map snd (firstn 1 (rev two_months))).
Proof.
  apply (@estimate_of_sorted_frame _ (rev two_months) 1 snd fst).
  - simpl. repeat constructor. unfold key_le. simpl. lia.
  - simpl. repeat constructor; simpl; intuition discriminate.
Defined.

(** When no two rows share a date, the estimate does not depend on the
    order of the rows in the frame. *)
Theorem estimate_order_independent
    (Row : Type) (df df' : list Row) (n : Z)
    (variable : Row -> float64) (date : Row -> Z) :
  Permutation df df' -> NoDup (map date df) ->
  get_max_initial_production df n variable date
  = get_max_initial_production df' n variable date.
Proof.
  intros Hperm Hnd. unfold get_max_initial_production.
  replace (sort_values date df') with (sort_values date df); [reflexivity |].
  apply sorted_frames_equal with (key := date).
  - apply key_le_sorted_strongly, sort_values_sorted.
  - apply key_le_sorted_strongly, sort_values_sorted.
  - eapply perm_trans; [apply sort_values_perm |].
    eapply perm_trans; [exact Hperm |].
    apply Permutation_sym, sort_values_perm.
  - eapply Permutation_NoDup; [| exact Hnd].
    apply Permutation_map, Permutation_sym, sort_values_perm.
Qed.

Lemma estimate_order_independent_two_months :
  get_max_initial_production two_months 1 snd fst
  = get_max_initial_production (rev two_months) 1 snd fst.
Proof.
  apply estimate_order_independent.
  - apply Permutation_rev.
  - simpl. repeat constructor; simpl; intuition discriminate.
Defined.

(** * Further properties of the driver *)

Section WellRows.

Open Scope Z_scope.

Lemma filter_of_map {A B : Type} (f : A -> B) (p : B -> bool) (l : list A) :
  filter p (map f l) = map f (filter (fun x => p (f x)) l).
Proof.
  induction l as [| x l IH]; simpl; [reflexivity |].
  destruct (p (f x)); simpl; now rewrite IH.
Qed.

Lemma online_date_of_own_rows (kept : list reading) (api_number : Z)
    (r : reading) :
  API_WELLNO r = api_number ->
  online_date_of (rows_of_well api_number kept) r = online_date_of kept r.
Proof.
  intros <-. unfold online_date_of, group_rows, rows_of_well.
  now rewrite filter_twice.
Qed.

(** Anchoring the whole table and taking the rows of a well is anchoring
    the rows of that well alone. *)
Lemma subset_anchor (csv : list reading) (api_number : Z) :
  subset (anchor csv) api_number = anchor (rows_of_well api_number csv).
Proof.
  rewrite !anchor_rows. unfold subset.
  rewrite filter_of_map. simpl.
  set (kept := remove_nan_and_zeroes_from_columns csv desired_product_type).
  assert (E : remove_nan_and_zeroes_from_columns
                (rows_of_well api_number csv) desired_product_type
              = rows_of_well api_number kept).
  { unfold kept, rows_of_well, remove_nan_and_zeroes_from_columns.
    apply filter_swap. }
  rewrite E. fold (rows_of_well api_number kept).
  apply map_ext_in. intros r Hr.
  unfold rows_of_well in Hr. apply filter_In in Hr as [_ Hapi].
  apply Z.eqb_eq in Hapi.
  now rewrite (@online_date_of_own_rows kept _ _ Hapi).
Qed.

Lemma subset_online_in_2016 (csv : list reading) (api_number : Z) :
  subset (online_in_2016 (anchor csv)) api_number
  = online_in_2016 (anchor (rows_of_well api_number csv)).
Proof.
  rewrite <- subset_anchor. unfold subset, online_in_2016.
  apply filter_swap.
Qed.

Lemma process_well_subset (curve_fit : solver)
    (data data' : list online_reading) (api_number : Z) :
  subset data api_number = subset data' api_number ->
  process_well curve_fit data api_number
  = process_well curve_fit data' api_number.
Proof. intros E. unfold process_well. now rewrite E. Qed.

Lemma anchor_valid (csv : list reading) (r : online_reading) :
  In r (anchor csv) ->
  valid_rate (rate_column r) /\ 0 <= Days_Online r.
Proof.
  intros Hr. apply anchor_In in Hr as (Hk & Ho & Hd). split.
  - unfold remove_nan_and_zeroes_from_columns in Hk.
    apply filter_In in Hk as [_ Hk]. now apply keep_test_spec in Hk.
  - rewrite Hd. apply days_quot. rewrite Ho.
    pose proof (online_date_lower_bound _ (raw r) (raw r) Hk eq_refl). lia.
Qed.

Lemma subset_rows (csv : list reading) (api_number : Z) (r : online_reading) :
  In r (subset (online_in_2016 (anchor csv)) api_number) ->
  In r (anchor csv) /\ API_WELLNO (raw r) = api_number.
Proof.
  intros Hr. unfold subset, online_in_2016 in Hr.
  apply filter_In in Hr as [Hr Hapi]. apply filter_In in Hr as [Hr _].
  split; [exact Hr | now apply Z.eqb_eq].
Qed.

(** A well with rows has an initial rate that is a positive rate of one of
    its rows. *)
Lemma initial_rate_positive (csv : list reading) (api_number : Z) :
  let series := subset (online_in_2016 (anchor csv)) api_number in
  series <> [] ->
  exists q,
    initial_rate series = Fin q /\ (0 < q)%R /\
    exists r, In r series /\ rate_column r = Fin q.
Proof.
  intros series Hne.
  assert (Hvalid : forall r, In r series -> valid_rate (rate_column r)).
  { intros r Hr. apply subset_rows in Hr as [Hr _].
    now apply anchor_valid in Hr. }
  assert (Hw : firstn 3 (sort_values date_column series) <> []).
  { destruct (sort_values date_column series) as [| x s] eqn:E;
      [| discriminate].
    exfalso. apply Hne. apply Permutation_nil. rewrite <- E.
    apply sort_values_perm. }
  assert (Hin : forall r, In r (firstn 3 (sort_values date_column series)) ->
                          In r series).
  { intros r Hr.
    apply (Permutation_in _ (sort_values_perm date_column series)).
    rewrite <- (firstn_skipn 3 (sort_values date_column series)).
    apply in_or_app. now left. }
  destruct (@window_maximum _ (firstn 3 (sort_values date_column series))
              rate_column Hw) as (q & Hq & (r & Hr & Er) & _).
  { intros r Hr E. apply Hin, Hvalid in Hr as (v & Ev & _). congruence. }
  exists q. split; [| split].
  - unfold initial_rate.
    exact (eq_trans (get_max_initial_production_window series 3
                       rate_column date_column) Hq).
  - destruct (Hvalid r (Hin r Hr)) as (v & Ev & Hv). congruence.
  - exists r. auto.
Qed.

End WellRows.

Section Completion.

Variable curve_fit : solver.
Variable bakken_data_2016 : list online_reading.
Variable api_number : Z.

(** A body that ends normally has shown the two lines and the plot. *)
Lemma process_well_completed :
  snd (process_well curve_fit bakken_data_2016 api_number) = Ok tt ->
  exists qe de qh bh dh,
    fst (process_well curve_fit bakken_data_2016 api_number)
    = [PrintExponential qe de; PrintHyperbolic qh bh dh;
       Plot api_number
         (map (predicted_row qe de qh bh dh)
            (subset bakken_data_2016 api_number))].
Proof.
  unfold process_well.
  set (series := subset bakken_data_2016 api_number).
  destruct (curve_fit call_exponential _ _ (exponential_bounds _))
    as [[pe ce] | e]; [| discriminate].
  rewrite seq_lift_Ok. cbn [fst]. unfold item.
  destruct pe as [| qe [| de pe]];
    cbn [nth_error]; try (rewrite ?seq_lift_Ok; discriminate).
  rewrite !seq_lift_Ok, seq_emit. cbn [fst snd].
  destruct (curve_fit call_hyperbolic _ _ (hyperbolic_bounds _))
    as [[ph ch] | e]; [| discriminate].
  rewrite seq_lift_Ok. cbn [fst].
  destruct ph as [| qh [| bh [| dh ph]]];
    cbn [nth_error]; try (rewrite ?seq_lift_Ok; discriminate).
  rewrite !seq_lift_Ok, seq_emit. cbn [fst snd].
  destruct pe; [| discriminate]. destruct ph; [| discriminate].
  intros _. exists qe, de, qh, bh, dh. reflexivity.
Qed.

End Completion.

(** When the body ends normally for each of the five listed wells, [main]
    ends normally and has shown, well after well in the order of the
    list, the exponential line, the hyperbolic line and the plot of the
    well: fifteen events. *)
Theorem main_completes (curve_fit : solver) (csv : list reading) :
  let data := online_in_2016 (anchor csv) in
  (forall api_number,
      In api_number unique_well_APIs_list ->
      snd (process_well curve_fit data api_number) = Ok tt) ->
  main curve_fit csv
  = (flat_map (fun api_number => fst (process_well curve_fit data api_number))
       unique_well_APIs_list,
     Ok tt) /\
  length (fst (main curve_fit csv)) = 15%nat /\
  (forall api_number,
      In api_number unique_well_APIs_list ->
      exists qe de qh bh dh,
        fst (process_well curve_fit data api_number)
        = [PrintExponential qe de; PrintHyperbolic qh bh dh;
           Plot api_number
             (map (predicted_row qe de qh bh dh) (subset data api_number))]).
Proof.
  intros data Hall.
  assert (Hshape : forall api_number,
             In api_number unique_well_APIs_list ->
             exists qe de qh bh dh,
               fst (process_well curve_fit data api_number)
               = [PrintExponential qe de; PrintHyperbolic qh bh dh;
                  Plot api_number
                    (map (predicted_row qe de qh bh dh)
                       (subset data api_number))]).
  { intros api Hapi. now apply process_well_completed, Hall. }
  assert (Hmain : main curve_fit csv
                  = (flat_map
                       (fun api_number =>
                          fst (process_well curve_fit data api_number))
                       unique_well_APIs_list, Ok tt)).
  { unfold main. fold data. now apply for_each_completes. }
  split; [exact Hmain |]. split; [| exact Hshape].
  rewrite Hmain. cbn [fst].
  assert (Hlen : forall l : list Z,
             (forall a, In a l ->
                exists qe de qh bh dh,
                  fst (process_well curve_fit data a)
                  = [PrintExponential qe de; PrintHyperbolic qh bh dh;
                     Plot a (map (predicted_row qe de qh bh dh)
                               (subset data a))]) ->
             length (flat_map (fun a => fst (process_well curve_fit data a)) l)
             = (3 * length l)%nat).
  { induction l as [| a l IH]; intros H; [reflexivity |].
    cbn [flat_map]. rewrite length_app, IH by (intros; apply H; now right).
    destruct (H a (or_introl eq_refl)) as (qe & de & qh & bh & dh & ->).
    simpl. lia. }
  rewrite (Hlen _ Hshape). reflexivity.
Qed.

Section CentreFitRuns.

Lemma centre_fit_completes (csv : list reading) (api_number : Z) :
  subset (online_in_2016 (anchor csv)) api_number <> [] ->
  snd (process_well centre_fit (online_in_2016 (anchor csv)) api_number)
  = Ok tt.
Proof.
  intros Hne.
  destruct (initial_rate_positive csv api_number Hne)
    as (q & Hq & Hpos & _).
  erewrite process_well_succeeds with (ce := []) (ch := []);
    [reflexivity | |]; rewrite Hq;
    destruct (subset (online_in_2016 (anchor csv)) api_number) as [| x s];
    try contradiction; cbn [map].
  - now apply centre_fit_exponential.
  - now apply centre_fit_hyperbolic.
Qed.

Lemma five_wells_kept :
  remove_nan_and_zeroes_from_columns five_wells desired_product_type
  = five_wells.
Proof.
  unfold remove_nan_and_zeroes_from_columns, five_wells. simpl.
  destruct (Rlt_dec 0 100); [reflexivity | lra].
Qed.

Lemma five_wells_rows (api_number : Z) :
  In api_number unique_well_APIs_list ->
  subset (online_in_2016 (anchor five_wells)) api_number <> [].
Proof.
  intros H E. apply (f_equal (@length _)) in E. revert E.
  rewrite anchor_rows, five_wells_kept.
  simpl in H.
  destruct H as [<- | [<- | [<- | [<- | [<- | []]]]]]; discriminate.
Qed.

End CentreFitRuns.

Lemma main_completes_five_wells :
  main centre_fit five_wells
  = (flat_map
       (fun api_number =>
          fst (process_well centre_fit
                 (online_in_2016 (anchor five_wells)) api_number))
       unique_well_APIs_list,
     Ok tt) /\
  length (fst (main centre_fit five_wells)) = 15%nat.
Proof.
  destruct (@main_completes centre_fit five_wells) as (H1 & H2 & _).
  - intros api_number H. apply centre_fit_completes, five_wells_rows, H.
  - split; [exact H1 | exact H2].
Defined.

(** The fit of a well depends on the rows of that well only: two tables
    that hold the same rows for a well give the same calls of the solver
    and the same output for it, whatever else they hold. *)
Theorem well_fit_depends_on_its_rows
    (curve_fit : solver) (csv csv' : list reading) (api_number : Z) :
  rows_of_well api_number csv = rows_of_well api_number csv' ->
  subset (online_in_2016 (anchor csv)) api_number
  = subset (online_in_2016 (anchor csv')) api_number /\
  process_well curve_fit (online_in_2016 (anchor csv)) api_number
  = process_well curve_fit (online_in_2016 (anchor csv')) api_number.
Proof.
  intros E.
  assert (H : subset (online_in_2016 (anchor csv)) api_number
              = subset (online_in_2016 (anchor csv')) api_number).
  { rewrite !subset_online_in_2016. now rewrite E. }
  split; [exact H | now apply process_well_subset].
Qed.

Lemma well_fit_depends_on_its_rows_example :
  process_well centre_fit (online_in_2016 (anchor single_observation))
    33023013930000
  = process_well centre_fit
      (online_in_2016 (anchor (second_well_only ++ single_observation)))
      33023013930000.
Proof.
  exact (proj2 (@well_fit_depends_on_its_rows centre_fit single_observation
                  (second_well_only ++ single_observation)
                  33023013930000%Z eq_refl)).
Defined.

Lemma online_in_2016_In (csv : list reading) (x : online_reading) :
  In x (online_in_2016 (anchor csv)) <->
  In x (anchor csv) /\
  (Timestamp.of_date 2016 1 1 <= Online_Date x
   <= Timestamp.of_date 2016 6 1)%Z.
Proof.
  unfold online_in_2016.
  rewrite filter_In, andb_true_iff, !Z.leb_le. reflexivity.
Qed.

Lemma online_in_2016_same_well (csv : list reading) (r r' : online_reading) :
  In r (anchor csv) -> In r' (anchor csv) ->
  API_WELLNO (raw r) = API_WELLNO (raw r') ->
  (In r (online_in_2016 (anchor csv)) <->
   In r' (online_in_2016 (anchor csv))).
Proof.
  intros Hr Hr' Hapi. rewrite !online_in_2016_In.
  assert (E : Online_Date r = Online_Date r').
  { destruct (anchor_In _ _ Hr) as (Hk & -> & _).
    destruct (anchor_In _ _ Hr') as (Hk' & -> & _).
    now apply online_date_of_well. }
  rewrite E. tauto.
Qed.

(** The date window of [main] keeps the rows whose online date lies from
    midnight of 2016-01-01 to midnight of 2016-06-01, both included, and
    it keeps or drops the rows of a well together. *)
Theorem window_keeps_whole_wells :
  forall (csv : list reading) (r r' : online_reading),
    (In r (online_in_2016 (anchor csv)) <->
     In r (anchor csv) /\
     (Timestamp.of_date 2016 1 1 <= Online_Date r
      <= Timestamp.of_date 2016 6 1)%Z) /\
    (In r (anchor csv) -> In r' (anchor csv) ->
     API_WELLNO (raw r) = API_WELLNO (raw r') ->
     (In r (online_in_2016 (anchor csv)) <->
      In r' (online_in_2016 (anchor csv)))).
Proof.
  intros csv r r'. split.
  - apply online_in_2016_In.
  - apply online_in_2016_same_well.
Qed.

(** Every series that [main] fits starts at day zero: a well with rows
    has a row whose days online are 0. *)
Theorem series_starts_at_day_zero (csv : list reading) (api_number : Z) :
  subset (online_in_2016 (anchor csv)) api_number <> [] ->
  In 0%Z (map Days_Online (subset (online_in_2016 (anchor csv)) api_number)).
Proof.
  intros Hne.
  destruct (subset (online_in_2016 (anchor csv)) api_number) as [| r s] eqn:E;
    [contradiction |].
  assert (Hr : In r (subset (online_in_2016 (anchor csv)) api_number))
    by (rewrite E; now left).
  rewrite <- E. clear E Hne s.
  pose proof Hr as Hsub. apply subset_rows in Hsub as [Ha Hapi].
  destruct (anchor_In _ _ Ha) as (Hk & Ho & _).
  destruct (online_date_attained _ (raw r) Hk) as (x & Hx & Hxapi & Hxdate).
  set (kept := remove_nan_and_zeroes_from_columns csv desired_product_type)
    in *.
  set (r0 := {| raw := x;
                Online_Date := online_date_of kept x;
                Days_Online :=
                  Timestamp.days (ReportDate x - online_date_of kept x) |}).
  assert (H0 : In r0 (anchor csv)).
  { rewrite anchor_rows. fold kept.
    apply in_map_iff. exists x. split; [reflexivity | exact Hx]. }
  assert (Eo : online_date_of kept x = online_date_of kept (raw r))
    by (now apply online_date_of_well).
  apply in_map_iff. exists r0. split.
  - simpl. rewrite Eo, Hxdate, Z.sub_diag. reflexivity.
  - unfold subset. apply filter_In. split.
    + apply (online_in_2016_same_well csv r r0);
        [exact Ha | exact H0 | simpl; congruence |].
      unfold subset in Hr. now apply filter_In in Hr.
    + simpl. apply Z.eqb_eq. congruence.
Qed.

Lemma series_starts_at_day_zero_single_observation :
  In 0%Z (map Days_Online
            (subset (online_in_2016 (anchor single_observation))
               33023013930000)).
Proof.
  apply series_starts_at_day_zero.
  rewrite single_observation_series. discriminate.
Defined.

(** What the solver is handed for a well: days online that are not
    negative and rates that are present and strictly positive.  For a
    well with rows the initial-rate estimate is a positive number, a rate
    of one of its rows, so the upper bound of qi lies above the lower
    bound 0; for a well without rows the estimate is NaN. *)
Theorem solver_inputs_are_clean :
  forall (csv : list reading) (api_number : Z),
    let series := subset (online_in_2016 (anchor csv)) api_number in
    Forall (fun d => (0 <= d)%Z) (map Days_Online series) /\
    Forall valid_rate (map rate_column series) /\
    (series <> [] ->
     exists q,
       initial_rate series = Fin q /\ (0 < q)%R /\
       exists r, In r series /\ rate_column r = Fin q) /\
    (series = [] -> initial_rate series = NaN).
Proof.
  intros csv api_number series.
  split; [| split; [| split]].
  - rewrite Forall_map, Forall_forall. intros r Hr.
    apply subset_rows in Hr as [Hr _]. now apply anchor_valid in Hr.
  - rewrite Forall_map, Forall_forall. intros r Hr.
    apply subset_rows in Hr as [Hr _]. now apply anchor_valid in Hr.
  - apply initial_rate_positive.
  - intros ->. reflexivity.
Qed.

(** Rows whose rate is missing or not positive never reach a fit: with
    them or without them in the table, the anchored frame, online dates
    included, and everything [main] shows are the same. *)
Theorem invalid_rows_are_ignored :
  forall (curve_fit : solver) (csv : list reading),
    anchor (remove_nan_and_zeroes_from_columns csv desired_product_type)
    = anchor csv /\
    main curve_fit
      (remove_nan_and_zeroes_from_columns csv desired_product_type)
    = main curve_fit csv.
Proof.
  intros curve_fit csv.
  assert (E : anchor (remove_nan_and_zeroes_from_columns
                        csv desired_product_type) = anchor csv).
  { unfold anchor at 1.
    replace (remove_nan_and_zeroes_from_columns
               (remove_nan_and_zeroes_from_columns csv desired_product_type)
               desired_product_type)
      with (remove_nan_and_zeroes_from_columns csv desired_product_type)
      by (symmetry; apply filter_twice).
    reflexivity. }
  split; [exact E |]. unfold main. now rewrite E.
Qed.
